(** * Octoprint status plugin of Glances: model and verified properties

    The development embeds [glances/plugins/glances_octoprint.py]: the
    constructor [Plugin.__init__] (configuration resolution), [Plugin.update]
    (one poll of the two REST endpoints) and [Plugin.msg_curse] (rendering of
    the last record as display lines).

    Python values are modelled by the inductive [pyval]; the builtins the
    plugin calls ([str], [int], [format] with a width, subscripting, [in],
    iteration, [datetime.timedelta]) are functions of module [Py]; raising
    is a value of [result].  Text is [string] where every character stands
    for one code point below 256, so that [String.length] is Python's [len]
    on that fragment (the degree sign of the temperature rows is code point
    176). *)

From Stdlib Require Import ZArith QArith List String Ascii Bool Lia DecimalString.
Import ListNotations.

Open Scope string_scope.
Open Scope Z_scope.

Set Warnings "-register-all".

(** ** Python values, exceptions and builtins *)

Module Py.

(** A float is its exact value (every finite binary64 is a rational) or one
    of the special values [json.loads] also produces, together with the text
    [repr] prints for it; computing the shortest round-trip digits is outside
    this development, so the value carries them. *)
Inductive float_value : Type :=
| Finite (q : Q)
| Infinite (negative : bool)
| NaN.

(** Values: what [json.loads] and [yaml.safe_load] return and what the
    plugin stores.  A dict keeps insertion order and has [str] keys.  An
    [int] has at most 4300 decimal digits: under the interpreter's default
    conversion limit no other int comes out of [json.loads] or [int()], and
    [str()] of such an int never raises. *)
Inductive pyval : Type :=
| PNone
| PBool (b : bool)
| PInt (n : Z)
| PFloat (v : float_value) (repr : string)
| PStr (s : string)
| PList (items : list pyval)
| PDict (entries : list (string * pyval)).

Definition dict : Type := list (string * pyval).

(** Exceptions raised by the builtins and by the parsers.  [KeyError]
    keeps the missing key. *)
Inductive exn : Type :=
| KeyError (key : pyval)
| IndexError
| TypeError
| ValueError
| OverflowError
| DecodeError (message : string).

(** Outcome of an expression that may raise. *)
Inductive result (A : Type) : Type :=
| Ok (a : A)
| Raise (e : exn).

Arguments Ok {A} a.
Arguments Raise {A} e.

Definition bind {A B : Type} (r : result A) (k : A -> result B) : result B :=
  match r with
  | Ok a => k a
  | Raise e => Raise e
  end.

Notation "x <- r ;; k" := (bind r (fun x => k))
  (at level 61, r at next level, right associativity).

(** *** Strings *)

Fixpoint spaces (n : nat) : string :=
  match n with
  | O => ""
  | S m => String " " (spaces m)
  end.

Definition len (s : string) : Z := Z.of_nat (String.length s).

(** [s.ljust(width)] and [s.rjust(width)]: never truncate. *)
Definition ljust (s : string) (width : Z) : string :=
  s ++ spaces (Z.to_nat (width - len s)).

Definition rjust (s : string) (width : Z) : string :=
  spaces (Z.to_nat (width - len s)) ++ s.

(** [needle in hay] on two [str]. *)
Fixpoint is_substring (needle hay : string) : bool :=
  prefix needle hay ||
  match hay with
  | EmptyString => false
  | String _ rest => is_substring needle rest
  end.

Definition startswith (s p : string) : bool := prefix p s.

Fixpoint endswith_char (s : string) (c : ascii) : bool :=
  match s with
  | EmptyString => false
  | String a EmptyString => Ascii.eqb a c
  | String _ rest => endswith_char rest c
  end.

Fixpoint join (sep : string) (parts : list string) : string :=
  match parts with
  | [] => ""
  | [p] => p
  | p :: rest => p ++ sep ++ join sep rest
  end.

Fixpoint chars (s : string) : list string :=
  match s with
  | EmptyString => []
  | String c rest => String c "" :: chars rest
  end.

(** [str(n)] for an int: decimal digits, a minus sign when negative. *)
Definition str_int (n : Z) : string := NilZero.string_of_int (Z.to_int n).

(** The conversion [%02d] of the duration format. *)
Definition two_digits (n : Z) : string :=
  if (0 <=? n) && (n <? 10) then "0" ++ str_int n else str_int n.

(** *** [repr] and [str] *)

Definition dquote : ascii := ascii_of_nat 34.
Definition squote : ascii := ascii_of_nat 39.
Definition backslash : ascii := ascii_of_nat 92.

Fixpoint has_char (c : ascii) (s : string) : bool :=
  match s with
  | EmptyString => false
  | String a rest => Ascii.eqb a c || has_char c rest
  end.

Definition hex_digit (n : nat) : ascii :=
  nth n (list_ascii_of_string "0123456789abcdef") "0"%char.

(** Code points below 256 that [repr] writes as they are. *)
Definition printable (n : nat) : bool :=
  ((32 <=? n) && (n <? 127))%nat || ((161 <=? n) && negb (n =? 173))%nat.

Definition repr_char (quote c : ascii) : string :=
  let n := nat_of_ascii c in
  if Ascii.eqb c quote || Ascii.eqb c backslash then String backslash (String c "")
  else if (n =? 9)%nat then String backslash "t"
  else if (n =? 10)%nat then String backslash "n"
  else if (n =? 13)%nat then String backslash "r"
  else if printable n then String c ""
  else String backslash
         (String "x" (String (hex_digit (n / 16)) (String (hex_digit (n mod 16)) ""))).

Definition repr_str (s : string) : string :=
  let quote := if has_char squote s && negb (has_char dquote s) then dquote else squote in
  String quote (concat "" (map (repr_char quote) (list_ascii_of_string s)) ++ String quote "").

Fixpoint py_repr (v : pyval) : string :=
  match v with
  | PNone => "None"
  | PBool true => "True"
  | PBool false => "False"
  | PInt n => str_int n
  | PFloat _ r => r
  | PStr s => repr_str s
  | PList items => "[" ++ join ", " (map py_repr items) ++ "]"
  | PDict entries =>
      "{" ++ join ", " (map (fun kv => let '(k, x) := kv in
                                       repr_str k ++ ": " ++ py_repr x) entries) ++ "}"
  end.

(** [str(v)], which is also what an f-string field without a format
    specification inserts. *)
Definition py_str (v : pyval) : string :=
  match v with
  | PStr s => s
  | _ => py_repr v
  end.

(** *** Truth value and [is None] *)

Definition py_truthy (v : pyval) : bool :=
  match v with
  | PNone => false
  | PBool b => b
  | PInt n => negb (n =? 0)
  | PFloat (Finite q) _ => negb (Qeq_bool q 0)
  | PFloat _ _ => true
  | PStr s => negb (String.eqb s "")
  | PList items => match items with [] => false | _ => true end
  | PDict entries => match entries with [] => false | _ => true end
  end.

Definition is_none (v : pyval) : bool :=
  match v with
  | PNone => true
  | _ => false
  end.

(** *** [int(v)] *)

(** Characters [int] strips from both ends of a [str]. *)
Definition int_space (c : ascii) : bool :=
  let n := nat_of_ascii c in
  (((9 <=? n) && (n <=? 13)) || (n =? 32) || (n =? 133) || (n =? 160))%nat.

Fixpoint lstrip (l : list ascii) : list ascii :=
  match l with
  | c :: rest => if int_space c then lstrip rest else l
  | [] => []
  end.

Definition strip (l : list ascii) : list ascii := rev (lstrip (rev (lstrip l))).

Definition digit_value (c : ascii) : option Z :=
  let n := nat_of_ascii c in
  if ((48 <=? n) && (n <=? 57))%nat then Some (Z.of_nat n - 48) else None.

(** Digits with single underscores between them; returns the value and the
    number of digits read. *)
Fixpoint int_digits (l : list ascii) (after_digit : bool) (acc : Z) (count : nat)
  : option (Z * nat) :=
  match l with
  | [] => if after_digit then Some (acc, count) else None
  | c :: rest =>
      match digit_value c with
      | Some d => int_digits rest true (10 * acc + d) (S count)
      | None =>
          if Ascii.eqb c "_" && after_digit then int_digits rest false acc count
          else None
      end
  end.

Definition max_str_digits : nat := 4300.

Definition int_of_str (s : string) : result Z :=
  let body := strip (list_ascii_of_string s) in
  let '(negative, digits) :=
    match body with
    | c :: rest =>
        if Ascii.eqb c "-" then (true, rest)
        else if Ascii.eqb c "+" then (false, rest)
        else (false, body)
    | [] => (false, body)
    end in
  match int_digits digits false 0 O with
  | Some (n, count) =>
      if (max_str_digits <? count)%nat then Raise ValueError
      else Ok (if negative then - n else n)
  | None => Raise ValueError
  end.

(** Truncation toward zero. *)
Definition int_of_float (v : float_value) : result Z :=
  match v with
  | Finite q => Ok (Z.quot (Qnum q) (Zpos (Qden q)))
  | Infinite _ => Raise OverflowError
  | NaN => Raise ValueError
  end.

Definition py_int (v : pyval) : result Z :=
  match v with
  | PInt n => Ok n
  | PBool b => Ok (if b then 1 else 0)
  | PFloat f _ => int_of_float f
  | PStr s => int_of_str s
  | PNone | PList _ | PDict _ => Raise TypeError
  end.

(** *** [format] with a width *)

(** ['{:{width}}'.format(v, width=w)]: the format specification is the
    decimal text of [w].  On a [str] a sign is refused, and the lone
    specification [0] is a fill flag without a width (CPython 3.10 and
    later); text is left-aligned.  Numbers take a sign or a zero flag and are
    right-aligned; a bool is formatted as the int it is; a float without a
    presentation type prints as [repr] does.  The other types refuse a
    non-empty specification. *)
Definition format_width (v : pyval) (w : Z) : result string :=
  match v with
  | PStr s => if w <? 0 then Raise ValueError else Ok (ljust s w)
  | PInt n => Ok (rjust (str_int n) (Z.abs w))
  | PBool b => Ok (rjust (if b then "1" else "0") (Z.abs w))
  | PFloat _ r => Ok (rjust r (Z.abs w))
  | PNone | PList _ | PDict _ => Raise TypeError
  end.

(** *** Containers *)

Fixpoint dict_get (d : dict) (k : string) : option pyval :=
  match d with
  | [] => None
  | (k', v) :: rest => if String.eqb k' k then Some v else dict_get rest k
  end.

Definition dict_has (d : dict) (k : string) : bool :=
  match dict_get d k with
  | Some _ => true
  | None => false
  end.

(** [d[k] = v]: an existing key keeps its position. *)
Fixpoint dict_set (d : dict) (k : string) (v : pyval) : dict :=
  match d with
  | [] => [(k, v)]
  | (k', v') :: rest =>
      if String.eqb k' k then (k, v) :: rest else (k', v') :: dict_set rest k v
  end.

(** Position of index [i] in a sequence of [n] items; negative indices count
    from the end. *)
Definition seq_index (i : Z) (n : nat) : option nat :=
  let j := if i <? 0 then i + Z.of_nat n else i in
  if (0 <=? j) && (j <? Z.of_nat n) then Some (Z.to_nat j) else None.

Definition index_of_key (key : pyval) : option Z :=
  match key with
  | PInt i => Some i
  | PBool b => Some (if b then 1 else 0)
  | _ => None
  end.

(** [container[key]]. *)
Definition py_getitem (container key : pyval) : result pyval :=
  match container with
  | PDict d =>
      match key with
      | PStr k =>
          match dict_get d k with
          | Some v => Ok v
          | None => Raise (KeyError key)
          end
      | PList _ | PDict _ => Raise TypeError
      | _ => Raise (KeyError key)
      end
  | PList items =>
      match index_of_key key with
      | Some i =>
          match seq_index i (List.length items) with
          | Some j => match nth_error items j with
                      | Some v => Ok v
                      | None => Raise IndexError
                      end
          | None => Raise IndexError
          end
      | None => Raise TypeError
      end
  | PStr s =>
      match index_of_key key with
      | Some i =>
          match seq_index i (String.length s) with
          | Some j => match String.get j s with
                      | Some c => Ok (PStr (String c ""))
                      | None => Raise IndexError
                      end
          | None => Raise IndexError
          end
      | None => Raise TypeError
      end
  | PNone | PBool _ | PInt _ | PFloat _ _ => Raise TypeError
  end.

(** [needle in container] for a [str] needle. *)
Definition py_contains (needle : string) (container : pyval) : result bool :=
  match container with
  | PDict d => Ok (dict_has d needle)
  | PStr s => Ok (is_substring needle s)
  | PList items =>
      Ok (existsb (fun v => match v with
                            | PStr s => String.eqb s needle
                            | _ => false
                            end) items)
  | PNone | PBool _ | PInt _ | PFloat _ _ => Raise TypeError
  end.

(** The items a [for] loop over [v] visits. *)
Definition py_iter (v : pyval) : result (list pyval) :=
  match v with
  | PDict d => Ok (map (fun kv => PStr (fst kv)) d)
  | PList items => Ok items
  | PStr s => Ok (map PStr (chars s))
  | PNone | PBool _ | PInt _ | PFloat _ _ => Raise TypeError
  end.

(** *** [datetime.timedelta] *)

(** [timedelta(seconds=n)] normalises to days and seconds of the day and
    refuses more than 999999999 days either way. *)
Record timedelta : Type := { days : Z; seconds : Z }.

Definition timedelta_of_seconds (n : Z) : result timedelta :=
  let d := n / 86400 in
  let s := n mod 86400 in
  if 999999999 <? Z.abs d then Raise OverflowError
  else Ok {| days := d; seconds := s |}.

Definition timedelta_str (t : timedelta) : string :=
  let mm := seconds t / 60 in
  let ss := seconds t mod 60 in
  let hh := mm / 60 in
  let mm := mm mod 60 in
  let s := str_int hh ++ ":" ++ two_digits mm ++ ":" ++ two_digits ss in
  if days t =? 0 then s
  else str_int (days t) ++ " day" ++ (if Z.abs (days t) =? 1 then "" else "s") ++ ", " ++ s.

(** *** [os.path.join] (POSIX) *)

Definition path_join (a b : string) : string :=
  if startswith b "/" then b
  else if String.eqb a "" || endswith_char a "/" then a ++ b
  else a ++ "/" ++ b.

End Py.

(** ** The collaborators of the plugin *)

Module Host.
Import Py.

(** Modelled from the spec: [glances.config.Config], the configuration
    accessor with "has section / get value with default" semantics.  A
    configuration is its sections, each a table of options with text
    values. *)
Definition Config : Type := list (string * list (string * string)).

Fixpoint assoc {A : Type} (table : list (string * A)) (name : string) : option A :=
  match table with
  | [] => None
  | (n, a) :: rest => if String.eqb n name then Some a else assoc rest name
  end.

Definition has_section (conf : Config) (section : string) : bool :=
  match assoc conf section with
  | Some _ => true
  | None => false
  end.

Definition get_value (conf : Config) (section option : string) (default : pyval) : pyval :=
  match assoc conf section with
  | Some options =>
      match assoc options option with
      | Some v => PStr v
      | None => default
      end
  | None => default
  end.

(** Modelled from the spec: [GlancesPlugin.curse_add_line] and
    [GlancesPlugin.curse_new_line]; the rendered output is an ordered
    sequence of (text, style-tag) pairs with explicit line-break markers
    between rows. *)
Inductive curse_item : Type :=
| Line (msg : string) (decoration : string)
| NewLine.

Definition curse_add_line (msg : string) (decoration : string) : curse_item :=
  Line msg decoration.

(** The default of the [decoration] argument. *)
Definition DEFAULT : string := "DEFAULT".

Definition curse_new_line : curse_item := NewLine.

(** Modelled from the spec: [GlancesPlugin.get_init_value]; the record is
    recreated from scratch on every poll cycle. *)
Definition get_init_value : dict := [].

(** What [requests.get] hands back: a response, of which the plugin reads
    the status code, the body text and the outcome of [.json()].  The JSON
    parser is not part of the model: [text] is the body as received and
    [json] what parsing it returns or raises. *)
Record Response : Type := {
  status_code : Z;
  text : string;
  json : result pyval
}.

(** A GET either returns a response or raises an [Exception] [e], kept as
    the text [str(e)]. *)
Inductive outcome : Type :=
| Reply (r : Response)
| Fault (message : string).

(** The network as the plugin sees it: what a GET of a URL with given
    headers does. *)
Definition transport : Type := string -> dict -> outcome.

(** The local files as the plugin sees them: [None] where [os.path.isfile]
    is false, otherwise the outcome of opening the file and of
    [yaml.safe_load] on it. *)
Definition files : Type := string -> option (result pyval).

End Host.

(** ** The plugin *)

Module Plugin.
Import Py Host.

(** The attributes of [self] the three methods use, and the disabled flag
    the host keeps for the plugin ([is_disable()]). *)
Record t : Type := {
  host : pyval;
  port : pyval;
  api_key : pyval;
  printer_url : string;
  job_url : string;
  headers : dict;
  stats : pyval;
  disabled : bool
}.

Definition set_stats (self : t) (v : pyval) : t :=
  {| host := host self; port := port self; api_key := api_key self;
     printer_url := printer_url self; job_url := job_url self;
     headers := headers self; stats := v; disabled := disabled self |}.

(** Methods run on [self]: they return or raise, and leave a [self]. *)
Definition M (A : Type) : Type := t -> result A * t.

Definition ret {A : Type} (a : A) : M A := fun self => (Ok a, self).

Definition lift {A : Type} (r : result A) : M A := fun self => (r, self).

Definition read {A : Type} (attribute : t -> A) : M A :=
  fun self => (Ok (attribute self), self).

Definition write_stats (v : pyval) : M unit :=
  fun self => (Ok tt, set_stats self v).

Definition mbind {A B : Type} (m : M A) (k : A -> M B) : M B :=
  fun self =>
    match m self with
    | (Ok a, self') => k a self'
    | (Raise e, self') => (Raise e, self')
    end.

Notation "x <~ m ;; k" := (mbind m (fun x => k))
  (at level 61, m at next level, right associativity).

(** [self.is_disable()]. *)
Definition is_disable : M bool := read disabled.

(** *** [__init__] *)

(** The API key of the local octoprint configuration
    ([__init__], the block under [if not self.api_key]). *)
Definition local_api_key (home : string) (fs : files) (api_key : pyval) : result pyval :=
  let path := path_join (path_join home ".octoprint") "config.yaml" in
  match fs path with
  | Some config_file =>
      data <- config_file ;;
      api <- py_getitem data (PStr "api") ;;
      py_getitem api (PStr "key")
  | None => Ok api_key
  end.

Definition init (is_disabled : bool) (conf : Config) (home : string) (fs : files)
  : result t :=
  let host0 := PStr "http://0.0.0.0" in
  let port0 := PInt 5000 in
  let api_key0 := PNone in
  let '(host1, port1, api_key1) :=
    if has_section conf "octoprint" then
      (get_value conf "octoprint" "host" (PStr "http://0.0.0.0"),
       get_value conf "octoprint" "port" (PStr "5000"),
       get_value conf "octoprint" "api_key" PNone)
    else (host0, port0, api_key0) in
  api_key2 <- (if negb (py_truthy api_key1) then local_api_key home fs api_key1
               else Ok api_key1) ;;
  has_http <- py_contains "http" host1 ;;
  let host2 := if negb has_http then PStr ("http://" ++ py_str host1) else host1 in
  Ok {| host := host2;
        port := port1;
        api_key := api_key2;
        printer_url := py_str host2 ++ ":" ++ py_str port1 ++ "/api/printer";
        job_url := py_str host2 ++ ":" ++ py_str port1 ++ "/api/job";
        headers := [("X-Api-Key", api_key2)];
        stats := PDict get_init_value;
        disabled := is_disabled |}.

(** *** [update] *)

(** The body of the method; the two decorators of the host, which decide
    whether the body runs and log its result, are not part of it. *)

(** The [except] branch. *)
Definition connect_failed (stats0 : dict) (e : string) : M pyval :=
  let stats1 := dict_set stats0 "state" (PStr "Error") in
  let stats2 := dict_set stats1 "error" (PStr ("Unable to connect: " ++ e)) in
  _ <~ write_stats (PDict stats2) ;;
  read stats.

(** The statements after the [try], up to the assignment of [self.stats]:
    they fill the local dict or raise. *)
Definition fill_stats (stats0 : dict) (printer job : Response) : result dict :=
  if negb (status_code printer =? 200) then
    let stats1 := dict_set stats0 "state" (PStr "Error") in
    Ok (dict_set stats1 "error" (PStr (text printer)))
  else
    job_json <- json job ;;
    printer_json <- json printer ;;
    job_job <- py_getitem job_json (PStr "job") ;;
    estimated <- py_getitem job_job (PStr "estimatedPrintTime") ;;
    let stats1 := dict_set stats0 "estimatedPrintTime" estimated in
    progress <- py_getitem job_json (PStr "progress") ;;
    print_time <- py_getitem progress (PStr "printTime") ;;
    let stats2 := dict_set stats1 "progress_printTime" print_time in
    progress' <- py_getitem job_json (PStr "progress") ;;
    print_time_left <- py_getitem progress' (PStr "printTimeLeft") ;;
    let stats3 := dict_set stats2 "progress_printTimeLeft" print_time_left in
    state <- py_getitem job_json (PStr "state") ;;
    let stats4 := dict_set stats3 "state" state in
    temperature <- py_getitem printer_json (PStr "temperature") ;;
    Ok (dict_set stats4 "temperature" temperature).

Definition update (requests_get : transport) : M pyval :=
  let stats0 := get_init_value in
  url <~ read printer_url ;;
  hdrs <~ read headers ;;
  match requests_get url hdrs with
  | Fault e => connect_failed stats0 e
  | Reply printer =>
      url' <~ read job_url ;;
      hdrs' <~ read headers ;;
      match requests_get url' hdrs' with
      | Fault e => connect_failed stats0 e
      | Reply job =>
          stats1 <~ lift (fill_stats stats0 printer job) ;;
          _ <~ write_stats (PDict stats1) ;;
          read stats
      end
  end.

(** *** [msg_curse] *)

(** [ret.append(item)]. *)
Definition append (l : list curse_item) (item : curse_item) : list curse_item :=
  (l ++ [item])%list.

(** The two characters after each temperature. *)
Definition degree_C : string := String (ascii_of_nat 176) "C".

(** [self.stats[key]]. *)
Definition stats_item (key : string) : M pyval :=
  stats0 <~ read stats ;;
  lift (py_getitem stats0 (PStr key)).

(** [x = None], then [x = int(tool[field])] unless [tool[field]] is
    [None]. *)
Definition int_field (tool : pyval) (field : string) : result pyval :=
  v <- py_getitem tool (PStr field) ;;
  if is_none v then Ok PNone
  else
    v' <- py_getitem tool (PStr field) ;;
    n <- py_int v' ;;
    Ok (PInt n).

(** [x = None], then [x = str(timedelta(seconds=int(self.stats[field])))]
    unless [self.stats[field]] is [None]. *)
Definition duration_field (field : string) : M pyval :=
  v <~ stats_item field ;;
  if is_none v then ret PNone
  else
    v' <~ stats_item field ;;
    n <~ lift (py_int v') ;;
    delta <~ lift (timedelta_of_seconds n) ;;
    ret (PStr (timedelta_str delta)).

(** One turn of the loop over the tools: three more items on [ret0]. *)
Definition temperature_row (name_max_width : Z) (key : pyval) (ret0 : list curse_item)
  : M (list curse_item) :=
  temperature <~ stats_item "temperature" ;;
  tool <~ lift (py_getitem temperature key) ;;
  actual <~ lift (int_field tool "actual") ;;
  target <~ lift (int_field tool "target") ;;
  tool_msg <~ lift (format_width key name_max_width) ;;
  let ret1 := append ret0 (curse_add_line tool_msg DEFAULT) in
  let tool_msg' :=
    rjust (py_str actual) 3 ++ degree_C ++ "  " ++ rjust (py_str target) 3 ++ degree_C in
  let ret2 := append ret1 (curse_add_line tool_msg' DEFAULT) in
  ret (append ret2 curse_new_line).

Fixpoint temperature_rows (name_max_width : Z) (keys : list pyval) (ret0 : list curse_item)
  : M (list curse_item) :=
  match keys with
  | [] => ret ret0
  | key :: rest =>
      ret1 <~ temperature_row name_max_width key ret0 ;;
      temperature_rows name_max_width rest ret1
  end.

(** The rows of a record without [error]: what follows the title. *)
Definition status_rows (max_width : Z) (ret0 : list curse_item) : M (list curse_item) :=
  let name_max_width := max_width - 11 in
  msg <~ lift (format_width (PStr "Temperature") name_max_width) ;;
  let ret1 := append ret0 (curse_add_line msg DEFAULT) in
  let msg' := "actual target" in
  let name_max_width' := max_width - 10 in
  let ret2 := append ret1 (curse_add_line msg' DEFAULT) in
  let ret3 := append ret2 curse_new_line in
  temperature <~ stats_item "temperature" ;;
  keys <~ lift (py_iter temperature) ;;
  ret4 <~ temperature_rows name_max_width' keys ret3 ;;
  let name_max_width'' := max_width - 5 in
  actual <~ duration_field "progress_printTime" ;;
  target <~ duration_field "progress_printTimeLeft" ;;
  msg_passed <~ lift (format_width (PStr "Time passed:") name_max_width'') ;;
  let ret5 := append ret4 (curse_add_line msg_passed DEFAULT) in
  let ret6 := append ret5 (curse_add_line (rjust (py_str actual) 6) DEFAULT) in
  let ret7 := append ret6 curse_new_line in
  msg_left <~ lift (format_width (PStr "Time left:") name_max_width'') ;;
  let ret8 := append ret7 (curse_add_line msg_left DEFAULT) in
  ret (append ret8 (curse_add_line (rjust (py_str target) 6) DEFAULT)).

Definition msg_curse (max_width : Z) : M (list curse_item) :=
  let ret0 := [] in
  stats0 <~ read stats ;;
  if negb (py_truthy stats0) then ret ret0
  else
    off <~ is_disable ;;
    if off then ret ret0
    else
      let name_max_width := max_width - 11 in
      state <~ stats_item "state" ;;
      msg <~ lift (format_width (PStr ("OCTOPRINT " ++ py_str state)) name_max_width) ;;
      let ret1 := append ret0 (curse_add_line msg "TITLE") in
      let ret2 := append ret1 curse_new_line in
      stats1 <~ read stats ;;
      has_error <~ lift (py_contains "error" stats1) ;;
      if has_error then
        error <~ stats_item "error" ;;
        msg_error <~ lift (format_width error name_max_width) ;;
        ret (append ret2 (curse_add_line msg_error DEFAULT))
      else status_rows max_width ret2.

End Plugin.

(** ** Predicates of the statements *)

Module Props.
Import Py Host Plugin.

(** A method that leaves [self] as it found it, whatever it returns. *)
Definition read_only {A : Type} (m : M A) : Prop :=
  forall self, snd (m self) = self.

(** The texts of the display lines, without the line breaks. *)
Fixpoint line_texts (items : list curse_item) : list string :=
  match items with
  | [] => []
  | Line msg _ :: rest => msg :: line_texts rest
  | NewLine :: rest => line_texts rest
  end.

(** The record [update] stores after a failed poll. *)
Definition error_record (message : string) : pyval :=
  PDict [("state", PStr "Error"); ("error", PStr message)].

(** The record [update] stores after a successful poll. *)
Definition status_record (estimated print_time print_time_left state temperature : pyval)
  : pyval :=
  PDict [("estimatedPrintTime", estimated);
         ("progress_printTime", print_time);
         ("progress_printTimeLeft", print_time_left);
         ("state", state);
         ("temperature", temperature)].

(** The tool of the rendering example: 200.4 is the binary64 nearest to it,
    7050948166601933 / 2^45. *)
Definition tool0 : pyval :=
  PDict [("actual", PFloat (Finite (7050948166601933 # 35184372088832)) "200.4");
         ("target", PInt 210)].

(** The host setting [__init__] starts from: the option of the [octoprint]
    section, or the default. *)
Definition configured_host (conf : Config) : pyval :=
  if has_section conf "octoprint"
  then get_value conf "octoprint" "host" (PStr "http://0.0.0.0")
  else PStr "http://0.0.0.0".

Definition configured_port (conf : Config) : pyval :=
  if has_section conf "octoprint"
  then get_value conf "octoprint" "port" (PStr "5000")
  else PInt 5000.

Definition configured_api_key (conf : Config) : pyval :=
  if has_section conf "octoprint"
  then get_value conf "octoprint" "api_key" PNone
  else PNone.

(** The path of the local octoprint configuration. *)
Definition local_config_path (home : string) : string :=
  path_join (path_join home ".octoprint") "config.yaml".

(** Sample inputs: a configured plugin, payloads of the two endpoints and
    stub transports. *)
Definition sample_plugin : Plugin.t :=
  {| host := PStr "http://octopi.local";
     port := PStr "5000";
     api_key := PStr "secret";
     printer_url := "http://octopi.local:5000/api/printer";
     job_url := "http://octopi.local:5000/api/job";
     headers := [("X-Api-Key", PStr "secret")];
     stats := PDict [];
     disabled := false |}.

Definition printer_payload : pyval :=
  PDict [("temperature", PDict [("tool0", tool0)])].

Definition job_payload : pyval :=
  PDict [("job", PDict [("estimatedPrintTime", PInt 5000)]);
         ("progress", PDict [("printTime", PInt 3661); ("printTimeLeft", PInt 1339)]);
         ("state", PStr "Printing")].

Definition reply (status : Z) (body : string) (parsed : result pyval) : outcome :=
  Reply {| status_code := status; text := body; json := parsed |}.

(** A transport that answers the printer URL of [sample_plugin] with
    [printer] and any other URL with [job]. *)
Definition stub (printer job : outcome) : transport :=
  fun url _ =>
    if String.eqb url "http://octopi.local:5000/api/printer" then printer else job.

(** Local files: only [path] is a file, and loading it gives [content]. *)
Definition only_file (path : string) (content : result pyval) : files :=
  fun p => if String.eqb p path then Some content else None.

Definition no_file : files := fun _ => None.

(** A duration below one day, as hours, minutes and seconds. *)
Definition hms (n : Z) : string :=
  str_int (n / 3600) ++ ":" ++ two_digits (n / 60 mod 60) ++ ":" ++ two_digits (n mod 60).

(** What a tool's row shows: its name and the two temperatures as
    [msg_curse] converts them. *)
Definition reading : Type := (string * (pyval * pyval))%type.

(** The entry [entry] of the temperature dict is shown as [r]. *)
Definition reads (entry : string * pyval) (r : reading) : Prop :=
  fst entry = fst r /\
  int_field (snd entry) "actual" = Ok (fst (snd r)) /\
  int_field (snd entry) "target" = Ok (snd (snd r)).

(** The three items of one tool. *)
Definition temperature_lines (w : Z) (r : reading) : list curse_item :=
  [Line (ljust (fst r) w) "DEFAULT";
   Line (rjust (py_str (fst (snd r))) 3 ++ degree_C ++ "  "
         ++ rjust (py_str (snd (snd r))) 3 ++ degree_C) "DEFAULT";
   NewLine].

(** A print time of the record: seconds, or [None]. *)
Definition seconds_value (o : option Z) : pyval :=
  match o with
  | Some n => PInt n
  | None => PNone
  end.

Definition below_a_day (o : option Z) : Prop :=
  match o with
  | Some n => 0 <= n < 86400
  | None => True
  end.

(** The text of a duration cell before it is right-aligned. *)
Definition duration_cell (o : option Z) : string :=
  match o with
  | Some n => hms n
  | None => "None"
  end.

(** The entries of the record [msg_curse] subscripts. *)
Definition rendered_keys : list string :=
  ["state"; "error"; "temperature"; "progress_printTime"; "progress_printTimeLeft"].

Definition same_rendered_entries (d1 d2 : dict) : Prop :=
  forall k, In k rendered_keys -> dict_get d1 k = dict_get d2 k.

(** Two runs of a method that return or raise the same. *)
Definition same_output {A : Type} (m : M A) (self1 self2 : Plugin.t) : Prop :=
  fst (m self1) = fst (m self2).


(** A method that, when it returns a list, returns one with items. *)
Definition never_empty {A : Type} (m : M (list A)) : Prop :=
  forall self items, fst (m self) = Ok items -> items <> [].

(** A method that, when it returns a list, returns [ret0] and more. *)
Definition extends {A : Type} (ret0 : list A) (m : M (list A)) : Prop :=
  forall self items, fst (m self) = Ok items -> exists tail, items = (ret0 ++ tail)%list.

(** More sample inputs: a second tool without temperatures, the record of a
    poll with both tools, and a local configuration with the key. *)
Definition bed : pyval := PDict [("actual", PNone); ("target", PNone)].

Definition two_tools : dict := [("tool0", tool0); ("bed", bed)].

Definition two_tools_record : pyval :=
  status_record (PInt 5000) (PInt 3661) PNone (PStr "Printing") (PDict two_tools).

Definition two_tools_readings : list reading :=
  [("tool0", (PInt 200, PInt 210)); ("bed", (PNone, PNone))].

Definition local_config : pyval :=
  PDict [("api", PDict [("key", PStr "0123ABCD")])].

End Props.

(** ** Properties *)

Import Py Host Plugin Props.

(** *** The builtins on sample inputs *)

Example repr_nested :
  py_repr (PDict [("a", PList [PInt 1; PNone; PBool true; PStr "x'y";
                               PFloat (Finite (3 # 2)) "1.5"])])
  = "{'a': [1, None, True, " ++ String dquote "x'y" ++ String dquote ", 1.5]}".
Proof. reflexivity. Qed.

Example repr_escapes :
  repr_str (String (ascii_of_nat 176)
             (String (ascii_of_nat 160) (String (ascii_of_nat 127) (String (ascii_of_nat 10) ""))))
  = String squote (String (ascii_of_nat 176) "\xa0\x7f\n'").
Proof. reflexivity. Qed.

Example int_of_str_samples :
  int_of_str " 1_0 " = Ok 10 /\ int_of_str "-007" = Ok (-7) /\
  int_of_str "1__0" = Raise ValueError /\ int_of_str "_1" = Raise ValueError /\
  int_of_str "" = Raise ValueError /\ int_of_str "- 1" = Raise ValueError.
Proof. repeat split; reflexivity. Qed.

Example int_truncates_toward_zero :
  py_int (PFloat (Finite (7050948166601933 # 35184372088832)) "200.4") = Ok 200 /\
  py_int (PFloat (Finite (- 2007 # 10)) "-200.7") = Ok (-200).
Proof. split; reflexivity. Qed.

Example format_width_samples :
  format_width (PStr "ab") 5 = Ok "ab   " /\
  format_width (PStr "abc") 0 = Ok "abc" /\
  format_width (PStr "abc") (-1) = Raise ValueError /\
  format_width (PInt 5) (-4) = Ok "   5" /\
  format_width (PBool true) 5 = Ok "    1" /\
  format_width PNone 5 = Raise TypeError.
Proof. repeat split; reflexivity. Qed.

Example timedelta_samples :
  (t <- timedelta_of_seconds 3661 ;; Ok (timedelta_str t)) = Ok "1:01:01" /\
  (t <- timedelta_of_seconds (-1) ;; Ok (timedelta_str t)) = Ok "-1 day, 23:59:59" /\
  (t <- timedelta_of_seconds 90000 ;; Ok (timedelta_str t)) = Ok "1 day, 1:00:00" /\
  (t <- timedelta_of_seconds 172800 ;; Ok (timedelta_str t)) = Ok "2 days, 0:00:00" /\
  timedelta_of_seconds (86400 * 1000000000) = Raise OverflowError.
Proof. repeat split; reflexivity. Qed.

Example path_join_samples :
  path_join (path_join "/home/u" ".octoprint") "config.yaml" = "/home/u/.octoprint/config.yaml" /\
  path_join (path_join "/" ".octoprint") "config.yaml" = "/.octoprint/config.yaml" /\
  path_join (path_join "" ".octoprint") "config.yaml" = ".octoprint/config.yaml".
Proof. repeat split; reflexivity. Qed.

(** *** Padding *)

Lemma spaces_length (n : nat) : String.length (spaces n) = n.
Proof. induction n as [|n IH]; simpl; [reflexivity | now rewrite IH]. Qed.

Lemma append_length (s1 s2 : string) :
  String.length (s1 ++ s2) = (String.length s1 + String.length s2)%nat.
Proof. induction s1 as [|c s1 IH]; simpl; [reflexivity | now rewrite IH]. Qed.

(** A padded text has the requested width, or its own when that is larger. *)
Lemma ljust_len (s : string) (w : Z) : len (ljust s w) = Z.max (len s) w.
Proof.
  unfold ljust, len. rewrite append_length, spaces_length. lia.
Qed.

Lemma rjust_len (s : string) (w : Z) : len (rjust s w) = Z.max (len s) w.
Proof.
  unfold rjust, len. rewrite append_length, spaces_length. lia.
Qed.

Lemma format_width_str (s : string) (w : Z) :
  0 <= w -> format_width (PStr s) w = Ok (ljust s w).
Proof.
  intros Hw. unfold format_width.
  destruct (w <? 0) eqn:E; [apply Z.ltb_lt in E; lia | reflexivity].
Qed.

Lemma format_width_str_negative (s : string) (w : Z) :
  w < 0 -> format_width (PStr s) w = Raise ValueError.
Proof.
  intros Hw. unfold format_width.
  destruct (w <? 0) eqn:E; [reflexivity | apply Z.ltb_ge in E; lia].
Qed.

(** *** Dicts *)

Lemma dict_get_has (d : dict) (k : string) (v : pyval) :
  dict_get d k = Some v -> dict_has d k = true.
Proof. unfold dict_has. now intros ->. Qed.

Lemma dict_get_truthy (d : dict) (k : string) (v : pyval) :
  dict_get d k = Some v -> py_truthy (PDict d) = true.
Proof. destruct d; simpl; [discriminate | reflexivity]. Qed.

Lemma getitem_dict (d : dict) (k : string) (v : pyval) :
  dict_get d k = Some v -> py_getitem (PDict d) (PStr k) = Ok v.
Proof. simpl. now intros ->. Qed.

(** *** Methods that only read [self] *)

Section ReadOnly.

Context {A B : Type}.

Lemma read_only_ret (a : A) : read_only (ret a).
Proof. intros self. reflexivity. Qed.

Lemma read_only_lift (r : result A) : read_only (lift r).
Proof. intros self. reflexivity. Qed.

Lemma read_only_read (attribute : Plugin.t -> A) : read_only (read attribute).
Proof. intros self. reflexivity. Qed.

Lemma read_only_mbind (m : M A) (k : A -> M B) :
  read_only m -> (forall a, read_only (k a)) -> read_only (mbind m k).
Proof.
  intros Hm Hk self. unfold mbind.
  specialize (Hm self).
  destruct (m self) as [[a|e] self']; simpl in Hm; subst self'.
  - apply Hk.
  - reflexivity.
Qed.

End ReadOnly.

Create HintDb read_only.

#[local] Hint Resolve read_only_ret read_only_lift read_only_read : read_only.

Ltac read_only_step :=
  match goal with
  | |- read_only (mbind _ _) => apply read_only_mbind; [ | intros ? ]
  | |- read_only (if ?b then _ else _) => destruct b
  | |- read_only (let _ := _ in _) => cbv zeta
  | |- read_only _ => solve [ auto with read_only ]
  end.

Lemma read_only_is_disable : read_only is_disable.
Proof. apply read_only_read. Qed.

Lemma read_only_stats_item (key : string) : read_only (stats_item key).
Proof. unfold stats_item. repeat read_only_step. Qed.

#[local] Hint Resolve read_only_is_disable read_only_stats_item : read_only.

Lemma read_only_duration_field (field : string) : read_only (duration_field field).
Proof. unfold duration_field. repeat read_only_step. Qed.

Lemma read_only_temperature_row (w : Z) (key : pyval) (ret0 : list curse_item) :
  read_only (temperature_row w key ret0).
Proof. unfold temperature_row. repeat read_only_step. Qed.

#[local] Hint Resolve read_only_duration_field read_only_temperature_row : read_only.

Lemma read_only_temperature_rows (w : Z) (keys : list pyval) :
  forall ret0, read_only (temperature_rows w keys ret0).
Proof.
  induction keys as [|key rest IH]; intros ret0; simpl.
  - apply read_only_ret.
  - apply read_only_mbind; [apply read_only_temperature_row | intros ret1; apply IH].
Qed.

#[local] Hint Resolve read_only_temperature_rows : read_only.

Lemma read_only_status_rows (max_width : Z) (ret0 : list curse_item) :
  read_only (status_rows max_width ret0).
Proof. unfold status_rows. repeat read_only_step. Qed.

#[local] Hint Resolve read_only_status_rows : read_only.

Lemma read_only_msg_curse (max_width : Z) : read_only (msg_curse max_width).
Proof. unfold msg_curse. repeat read_only_step. Qed.

(** *** Rendering *)

(** C8: [msg_curse] leaves [self], and with it the record, as it found
    them, and a second call with the same width on the plugin the first call
    left returns what the first call returned. *)
Theorem msg_curse_stateless (max_width : Z) (self : Plugin.t) :
  snd (msg_curse max_width self) = self /\
  stats (snd (msg_curse max_width self)) = stats self /\
  msg_curse max_width (snd (msg_curse max_width self)) = msg_curse max_width self.
Proof.
  pose proof (read_only_msg_curse max_width self) as H.
  rewrite H. repeat split; reflexivity.
Qed.

(** The first statements of [msg_curse] on a plugin that is enabled and
    holds a record: the title is formatted from the state. *)
Lemma msg_curse_enabled (max_width : Z) (self : Plugin.t) :
  py_truthy (stats self) = true -> disabled self = false ->
  msg_curse max_width self =
  (state <~ stats_item "state" ;;
   msg <~ lift (format_width (PStr ("OCTOPRINT " ++ py_str state)) (max_width - 11)) ;;
   stats1 <~ read stats ;;
   has_error <~ lift (py_contains "error" stats1) ;;
   if has_error then
     error <~ stats_item "error" ;;
     msg_error <~ lift (format_width error (max_width - 11)) ;;
     ret [curse_add_line msg "TITLE"; curse_new_line; curse_add_line msg_error DEFAULT]
   else status_rows max_width [curse_add_line msg "TITLE"; curse_new_line]) self.
Proof.
  intros Hstats Henabled.
  unfold msg_curse.
  unfold mbind at 1, read at 1. cbv beta iota.
  rewrite Hstats. cbn [negb].
  unfold mbind at 1, is_disable. unfold read at 1. cbv beta iota.
  rewrite Henabled. reflexivity.
Qed.

(** C10: on a plugin that is enabled and holds a non-empty record, a width
    below 11 makes [msg_curse] raise instead of returning lines; when the
    record has a state, what is raised is the [ValueError] of the title's
    negative format width. *)
Theorem msg_curse_narrow_raises (max_width : Z) (self : Plugin.t) :
  py_truthy (stats self) = true -> disabled self = false -> max_width < 11 ->
  (exists e, msg_curse max_width self = (Raise e, self)) /\
  (forall state, py_getitem (stats self) (PStr "state") = Ok state ->
     msg_curse max_width self = (Raise ValueError, self)).
Proof.
  intros Hstats Henabled Hwidth.
  rewrite (msg_curse_enabled max_width self Hstats Henabled).
  unfold stats_item, mbind, read, lift.
  destruct (py_getitem (stats self) (PStr "state")) as [state|e] eqn:Hstate.
  - rewrite format_width_str_negative by lia.
    split; [now exists ValueError | reflexivity].
  - split; [now exists e | intros state H; discriminate H].
Qed.

(** C6: on an enabled plugin and a width of 11 or more, a record with an
    [error] text is rendered as the title line, a line break and the error
    line, both texts padded to [max_width - 11], and nothing else. *)
Theorem msg_curse_error_record
  (max_width : Z) (self : Plugin.t) (d : dict) (state : pyval) (error : string) :
  stats self = PDict d ->
  dict_get d "state" = Some state ->
  dict_get d "error" = Some (PStr error) ->
  disabled self = false ->
  11 <= max_width ->
  msg_curse max_width self =
    (Ok [Line (ljust ("OCTOPRINT " ++ py_str state) (max_width - 11)) "TITLE";
         NewLine;
         Line (ljust error (max_width - 11)) "DEFAULT"], self) /\
  len (ljust ("OCTOPRINT " ++ py_str state) (max_width - 11))
    = Z.max (len ("OCTOPRINT " ++ py_str state)) (max_width - 11) /\
  len (ljust error (max_width - 11)) = Z.max (len error) (max_width - 11).
Proof.
  intros Hstats Hstate Herror Henabled Hwidth.
  split; [ | split; apply ljust_len ].
  rewrite msg_curse_enabled
    by (try rewrite Hstats; eauto using dict_get_truthy).
  unfold stats_item, mbind, read, lift.
  rewrite Hstats, (getitem_dict _ _ _ Hstate). cbv beta iota.
  rewrite format_width_str by lia. cbv beta iota.
  cbn [py_contains]. rewrite (dict_get_has _ _ _ Herror). cbv beta iota.
  rewrite Hstats, (getitem_dict _ _ _ Herror). cbv beta iota.
  rewrite format_width_str by lia.
  reflexivity.
Qed.

(** Running a method step by step on a given [self]. *)
Lemma mbind_ok {A B : Type} (m : M A) (k : A -> M B) (self : Plugin.t) (a : A) :
  m self = (Ok a, self) -> mbind m k self = k a self.
Proof. unfold mbind. now intros ->. Qed.

Lemma mbind_raise {A B : Type} (m : M A) (k : A -> M B) (self : Plugin.t) (e : exn) :
  m self = (Raise e, self) -> mbind m k self = (Raise e, self).
Proof. unfold mbind. now intros ->. Qed.

Lemma stats_item_dict (self : Plugin.t) (d : dict) (k : string) (v : pyval) :
  stats self = PDict d -> dict_get d k = Some v -> stats_item k self = (Ok v, self).
Proof.
  intros Hstats Hk. unfold stats_item, mbind, read, lift.
  now rewrite Hstats, (getitem_dict _ _ _ Hk).
Qed.

(** Below one day a duration has no days part and prints as
    hours:minutes:seconds. *)
Lemma timedelta_below_a_day (n : Z) :
  0 <= n < 86400 ->
  timedelta_of_seconds n = Ok {| days := 0; seconds := n |} /\
  timedelta_str {| days := 0; seconds := n |} = hms n.
Proof.
  intros Hn. split.
  - unfold timedelta_of_seconds.
    rewrite Z.div_small, Z.mod_small by lia. reflexivity.
  - unfold timedelta_str, hms. cbn [days seconds Z.eqb].
    rewrite Z.div_div by lia. reflexivity.
Qed.

Lemma duration_field_int (self : Plugin.t) (d : dict) (field : string) (n : Z) :
  stats self = PDict d -> dict_get d field = Some (PInt n) -> 0 <= n < 86400 ->
  duration_field field self = (Ok (PStr (hms n)), self).
Proof.
  intros Hstats Hfield Hn.
  destruct (timedelta_below_a_day n Hn) as [Hdelta Hstr].
  unfold duration_field.
  rewrite (mbind_ok _ _ self _ (stats_item_dict _ _ _ _ Hstats Hfield)).
  cbn [is_none].
  rewrite (mbind_ok _ _ self _ (stats_item_dict _ _ _ _ Hstats Hfield)).
  unfold mbind, lift, ret. cbn [py_int]. rewrite Hdelta, Hstr. reflexivity.
Qed.

(** The row of one tool whose temperatures are numbers or [None]. *)
Lemma temperature_row_dict
  (self : Plugin.t) (d tools : dict) (w : Z) (name : string) (tool actual target : pyval)
  (ret0 : list curse_item) :
  stats self = PDict d ->
  dict_get d "temperature" = Some (PDict tools) ->
  dict_get tools name = Some tool ->
  int_field tool "actual" = Ok actual ->
  int_field tool "target" = Ok target ->
  0 <= w ->
  temperature_row w (PStr name) ret0 self =
    (Ok (append (append (append ret0 (Line (ljust name w) "DEFAULT"))
                   (Line (rjust (py_str actual) 3 ++ degree_C ++ "  "
                          ++ rjust (py_str target) 3 ++ degree_C) "DEFAULT"))
           NewLine), self).
Proof.
  intros Hstats Htemp Htool Hactual Htarget Hw.
  unfold temperature_row.
  rewrite (mbind_ok _ _ self _ (stats_item_dict _ _ _ _ Hstats Htemp)).
  unfold mbind, lift, ret.
  rewrite (getitem_dict _ _ _ Htool), Hactual, Htarget, format_width_str by lia.
  reflexivity.
Qed.

(** C7: the record with the tool [tool0] (actual 200.4, target 210) and 3661
    seconds of print time, rendered at width 40: title, header, the row of
    [tool0] with 200 and 210 degrees, and the two duration rows; 3661
    seconds print as 1:01:01, and the time left, below a day, as hours,
    minutes and seconds. *)
Theorem msg_curse_status_example
  (self : Plugin.t) (state : string) (estimated : pyval) (time_left : Z) :
  stats self = status_record estimated (PInt 3661) (PInt time_left) (PStr state)
                 (PDict [("tool0", tool0)]) ->
  disabled self = false ->
  0 <= time_left < 86400 ->
  msg_curse 40 self =
    (Ok [Line (ljust ("OCTOPRINT " ++ state) 29) "TITLE";
         NewLine;
         Line "Temperature                  " "DEFAULT";
         Line "actual target" "DEFAULT";
         NewLine;
         Line "tool0                         " "DEFAULT";
         Line ("200" ++ degree_C ++ "  210" ++ degree_C) "DEFAULT";
         NewLine;
         Line "Time passed:                       " "DEFAULT";
         Line "1:01:01" "DEFAULT";
         NewLine;
         Line "Time left:                         " "DEFAULT";
         Line (rjust (hms time_left) 6) "DEFAULT"], self) /\
  hms 3661 = "1:01:01".
Proof.
  intros Hstats Henabled Hleft.
  split; [ | reflexivity ].
  rewrite msg_curse_enabled by (try rewrite Hstats; auto).
  unfold status_record in Hstats.
  rewrite (mbind_ok _ _ self _ (stats_item_dict _ _ "state" _ Hstats eq_refl)).
  unfold mbind at 1, lift at 1. rewrite format_width_str by lia. cbv beta iota.
  unfold mbind at 1, read at 1. cbv beta iota.
  unfold mbind at 1, lift at 1. rewrite Hstats.
  cbn [py_contains]. change (dict_has _ "error") with false. cbv beta iota.
  unfold status_rows.
  unfold mbind at 1, lift at 1. rewrite format_width_str by lia. cbv beta iota.
  rewrite (mbind_ok _ _ self _ (stats_item_dict _ _ "temperature" _ Hstats eq_refl)).
  unfold mbind at 1, lift at 1. cbn [py_iter map fst]. cbv beta iota.
  cbn [temperature_rows].
  rewrite (mbind_ok _ _ self _
             (mbind_ok _ _ self _
                (temperature_row_dict self _ _ (40 - 10) "tool0" tool0 (PInt 200) (PInt 210) _
                   Hstats eq_refl eq_refl eq_refl eq_refl ltac:(lia)))).
  rewrite (mbind_ok _ _ self _
             (duration_field_int self _ "progress_printTime" 3661 Hstats eq_refl
                ltac:(lia))).
  rewrite (mbind_ok _ _ self _
             (duration_field_int self _ "progress_printTimeLeft" time_left Hstats eq_refl
                Hleft)).
  unfold mbind, lift, ret.
  rewrite !format_width_str by lia.
  reflexivity.
Qed.

(** *** Polling *)

(** [update] once both requests have returned: the local dict is filled and
    stored, or what filling it raises leaves [self] as it was. *)
Lemma update_replies (requests_get : transport) (self : Plugin.t) (printer job : Response) :
  requests_get (printer_url self) (headers self) = Reply printer ->
  requests_get (job_url self) (headers self) = Reply job ->
  update requests_get self =
    match fill_stats get_init_value printer job with
    | Ok d => (Ok (PDict d), set_stats self (PDict d))
    | Raise e => (Raise e, self)
    end.
Proof.
  intros Hprinter Hjob.
  unfold update, mbind, read, lift, write_stats.
  rewrite Hprinter, Hjob.
  destruct (fill_stats get_init_value printer job); reflexivity.
Qed.

Lemma update_fault (requests_get : transport) (self : Plugin.t) (e : string) :
  requests_get (printer_url self) (headers self) = Fault e \/
  (exists printer, requests_get (printer_url self) (headers self) = Reply printer /\
                   requests_get (job_url self) (headers self) = Fault e) ->
  update requests_get self =
    (Ok (error_record ("Unable to connect: " ++ e)),
     set_stats self (error_record ("Unable to connect: " ++ e))).
Proof.
  intros [Hprinter | [printer [Hprinter Hjob]]];
    unfold update, mbind, read, lift; rewrite Hprinter; [ | rewrite Hjob ];
    reflexivity.
Qed.

(** The projection of well-formed payloads. *)
Lemma fill_stats_projects
  (printer job : Response)
  (job_json printer_json job_job progress estimated print_time print_time_left
     state temperature : pyval) :
  status_code printer = 200 ->
  json job = Ok job_json ->
  json printer = Ok printer_json ->
  py_getitem job_json (PStr "job") = Ok job_job ->
  py_getitem job_job (PStr "estimatedPrintTime") = Ok estimated ->
  py_getitem job_json (PStr "progress") = Ok progress ->
  py_getitem progress (PStr "printTime") = Ok print_time ->
  py_getitem progress (PStr "printTimeLeft") = Ok print_time_left ->
  py_getitem job_json (PStr "state") = Ok state ->
  py_getitem printer_json (PStr "temperature") = Ok temperature ->
  fill_stats get_init_value printer job =
    Ok [("estimatedPrintTime", estimated);
        ("progress_printTime", print_time);
        ("progress_printTimeLeft", print_time_left);
        ("state", state);
        ("temperature", temperature)].
Proof.
  intros Hstatus Hjob Hprinter Hjj Hest Hprogress Hpt Hptl Hstate Htemp.
  unfold fill_stats. rewrite Hstatus. cbn [Z.eqb Pos.eqb negb].
  rewrite Hjob, Hprinter. cbn [bind].
  rewrite Hjj. cbn [bind]. rewrite Hest. cbn [bind].
  rewrite Hprogress. cbn [bind]. rewrite Hpt. cbn [bind]. rewrite Hptl. cbn [bind].
  rewrite Hstate. cbn [bind]. rewrite Htemp. reflexivity.
Qed.

(** Of the job response only the outcome of [.json()] is used. *)
Lemma fill_stats_job_json (stats0 : dict) (printer job1 job2 : Response) :
  json job1 = json job2 ->
  fill_stats stats0 printer job1 = fill_stats stats0 printer job2.
Proof. intros H. unfold fill_stats. rewrite H. reflexivity. Qed.

(** C3: when both requests return, the printer status is 200 and the
    payloads have the expected entries, [update] stores and returns the
    record with exactly the five projected entries, in which there is no
    [error]. *)
Theorem update_projects_payloads
  (requests_get : transport) (self : Plugin.t) (printer job : Response)
  (job_json printer_json job_job progress estimated print_time print_time_left
     state temperature : pyval) :
  requests_get (printer_url self) (headers self) = Reply printer ->
  requests_get (job_url self) (headers self) = Reply job ->
  status_code printer = 200 ->
  json job = Ok job_json ->
  json printer = Ok printer_json ->
  py_getitem job_json (PStr "job") = Ok job_job ->
  py_getitem job_job (PStr "estimatedPrintTime") = Ok estimated ->
  py_getitem job_json (PStr "progress") = Ok progress ->
  py_getitem progress (PStr "printTime") = Ok print_time ->
  py_getitem progress (PStr "printTimeLeft") = Ok print_time_left ->
  py_getitem job_json (PStr "state") = Ok state ->
  py_getitem printer_json (PStr "temperature") = Ok temperature ->
  update requests_get self =
    (Ok (status_record estimated print_time print_time_left state temperature),
     set_stats self (status_record estimated print_time print_time_left state temperature)) /\
  py_contains "error"
    (status_record estimated print_time print_time_left state temperature) = Ok false.
Proof.
  intros Hp Hj Hstatus Hjob Hprinter Hjj Hest Hprogress Hpt Hptl Hstate Htemp.
  split; [ | reflexivity ].
  rewrite (update_replies _ _ _ _ Hp Hj).
  rewrite (fill_stats_projects _ _ _ _ _ _ _ _ _ _ _
             Hstatus Hjob Hprinter Hjj Hest Hprogress Hpt Hptl Hstate Htemp).
  reflexivity.
Qed.

(** C4: when the first request raises, or the first returns and the second
    raises, [update] stores and returns the record of state [Error] whose
    error text starts with "Unable to connect: "; that record has no
    temperature and no progress entry. *)
Theorem update_transport_fault (requests_get : transport) (self : Plugin.t) :
  (exists e, requests_get (printer_url self) (headers self) = Fault e) \/
  (exists e, requests_get (job_url self) (headers self) = Fault e) ->
  exists message,
    update requests_get self =
      (Ok (error_record message), set_stats self (error_record message)) /\
    py_getitem (error_record message) (PStr "state") = Ok (PStr "Error") /\
    py_getitem (error_record message) (PStr "error") = Ok (PStr message) /\
    message <> "" /\
    startswith message "Unable to connect: " = true /\
    py_contains "temperature" (error_record message) = Ok false /\
    py_contains "progress_printTime" (error_record message) = Ok false /\
    py_contains "progress_printTimeLeft" (error_record message) = Ok false /\
    py_contains "estimatedPrintTime" (error_record message) = Ok false.
Proof.
  intros H.
  assert (exists e, update requests_get self =
            (Ok (error_record ("Unable to connect: " ++ e)),
             set_stats self (error_record ("Unable to connect: " ++ e)))) as [e He].
  { destruct (requests_get (printer_url self) (headers self)) as [printer|e1] eqn:Hp.
    - destruct H as [[e H] | [e H]]; [discriminate H | ].
      exists e. apply update_fault. right. exists printer. rewrite Hp. auto.
    - exists e1. apply update_fault. left. exact Hp. }
  exists ("Unable to connect: " ++ e).
  repeat split; try reflexivity; try exact He.
  - discriminate.
  - unfold startswith. simpl. destruct e; reflexivity.
Qed.

(** C5: when both requests return and the printer status is not 200,
    [update] stores and returns the record of state [Error] whose error is
    the body text of the printer response. *)
Theorem update_printer_status_error
  (requests_get : transport) (self : Plugin.t) (printer job : Response) :
  requests_get (printer_url self) (headers self) = Reply printer ->
  requests_get (job_url self) (headers self) = Reply job ->
  status_code printer <> 200 ->
  update requests_get self =
    (Ok (error_record (text printer)), set_stats self (error_record (text printer))) /\
  py_getitem (error_record (text printer)) (PStr "state") = Ok (PStr "Error") /\
  py_getitem (error_record (text printer)) (PStr "error") = Ok (PStr (text printer)).
Proof.
  intros Hp Hj Hstatus.
  repeat split.
  rewrite (update_replies _ _ _ _ Hp Hj). unfold fill_stats.
  destruct (status_code printer =? 200) eqn:E.
  - apply Z.eqb_eq in E. contradiction.
  - reflexivity.
Qed.

(** C9: with a printer status of 200, [update] depends on the job response
    only through the outcome of parsing its body: two job responses with the
    same parse outcome give the same result whatever their status codes; a
    body that does not parse makes [update] raise; and a body with the
    expected entries is projected into the record. *)
Theorem update_ignores_job_status
  (get1 get2 : transport) (self : Plugin.t) (printer job1 job2 : Response) :
  get1 (printer_url self) (headers self) = Reply printer ->
  get2 (printer_url self) (headers self) = Reply printer ->
  get1 (job_url self) (headers self) = Reply job1 ->
  get2 (job_url self) (headers self) = Reply job2 ->
  status_code printer = 200 ->
  json job1 = json job2 ->
  update get1 self = update get2 self /\
  (forall e, json job2 = Raise e -> update get2 self = (Raise e, self)) /\
  (forall job_json printer_json job_job progress estimated print_time print_time_left
          state temperature,
     json job2 = Ok job_json ->
     json printer = Ok printer_json ->
     py_getitem job_json (PStr "job") = Ok job_job ->
     py_getitem job_job (PStr "estimatedPrintTime") = Ok estimated ->
     py_getitem job_json (PStr "progress") = Ok progress ->
     py_getitem progress (PStr "printTime") = Ok print_time ->
     py_getitem progress (PStr "printTimeLeft") = Ok print_time_left ->
     py_getitem job_json (PStr "state") = Ok state ->
     py_getitem printer_json (PStr "temperature") = Ok temperature ->
     fst (update get2 self) =
       Ok (status_record estimated print_time print_time_left state temperature)).
Proof.
  intros Hp1 Hp2 Hj1 Hj2 Hstatus Hjson.
  rewrite (update_replies _ _ _ _ Hp1 Hj1), (update_replies _ _ _ _ Hp2 Hj2).
  rewrite (fill_stats_job_json _ _ _ _ Hjson).
  split; [reflexivity | split].
  - intros e He. unfold fill_stats. rewrite Hstatus, He. reflexivity.
  - intros job_json printer_json job_job progress estimated print_time print_time_left
           state temperature Hjob Hprinter Hjj Hest Hprogress Hpt Hptl Hstate Htemp.
    rewrite (fill_stats_projects _ _ _ _ _ _ _ _ _ _ _
               Hstatus Hjob Hprinter Hjj Hest Hprogress Hpt Hptl Hstate Htemp).
    reflexivity.
Qed.

(** *** Configuration resolution *)

Lemma get_value_str (conf : Config) (section option default : string) :
  exists h, get_value conf section option (PStr default) = PStr h.
Proof.
  unfold get_value.
  destruct (assoc conf section) as [options|]; [ | now exists default ].
  destruct (assoc options option) as [v|]; [now exists v | now exists default].
Qed.

Lemma configured_host_str (conf : Config) :
  exists h, configured_host conf = PStr h.
Proof.
  unfold configured_host.
  destruct (has_section conf "octoprint"); [apply get_value_str | now eexists].
Qed.

(** [__init__] in terms of the three settings it starts from. *)
Lemma init_unfold (flag : bool) (conf : Config) (home : string) (fs : files) :
  init flag conf home fs =
    (api_key2 <- (if negb (py_truthy (configured_api_key conf))
                  then local_api_key home fs (configured_api_key conf)
                  else Ok (configured_api_key conf)) ;;
     has_http <- py_contains "http" (configured_host conf) ;;
     let host2 := if negb has_http
                  then PStr ("http://" ++ py_str (configured_host conf))
                  else configured_host conf in
     Ok {| host := host2;
           port := configured_port conf;
           api_key := api_key2;
           printer_url := py_str host2 ++ ":" ++ py_str (configured_port conf)
                          ++ "/api/printer";
           job_url := py_str host2 ++ ":" ++ py_str (configured_port conf) ++ "/api/job";
           headers := [("X-Api-Key", api_key2)];
           stats := PDict get_init_value;
           disabled := flag |}).
Proof.
  unfold init, configured_api_key, configured_host, configured_port.
  destruct (has_section conf "octoprint"); reflexivity.
Qed.

(** What a successful [__init__] leaves: the host is the configured one,
    prefixed when it does not contain "http", and the two URLs are built
    from the host and the port. *)
Lemma init_normalises (flag : bool) (conf : Config) (home : string) (fs : files)
  (self : Plugin.t) :
  init flag conf home fs = Ok self ->
  exists h,
    configured_host conf = PStr h /\
    host self = PStr (if is_substring "http" h then h else "http://" ++ h) /\
    port self = configured_port conf /\
    printer_url self = py_str (host self) ++ ":" ++ py_str (port self) ++ "/api/printer" /\
    job_url self = py_str (host self) ++ ":" ++ py_str (port self) ++ "/api/job" /\
    headers self = [("X-Api-Key", api_key self)].
Proof.
  rewrite init_unfold.
  destruct (configured_host_str conf) as [h Hh]. rewrite Hh.
  destruct (if negb (py_truthy (configured_api_key conf))
            then local_api_key home fs (configured_api_key conf)
            else Ok (configured_api_key conf)) as [key|e]; [ | discriminate ].
  cbn [bind py_contains]. intros H. injection H as <-.
  exists h. cbn [host port printer_url job_url headers api_key].
  destruct (is_substring "http" h); cbn [negb]; repeat split; reflexivity.
Qed.

(** A configured host without "http" in it gets the prefix. *)
Lemma init_prefixes_host (flag : bool) (conf : Config) (home : string) (fs : files)
  (self : Plugin.t) (h : string) :
  init flag conf home fs = Ok self ->
  configured_host conf = PStr h ->
  is_substring "http" h = false ->
  host self = PStr ("http://" ++ h) /\
  startswith (py_str (host self)) "http://" = true.
Proof.
  intros Hinit Hh Hsub.
  destruct (init_normalises _ _ _ _ _ Hinit) as [h' [Hh' [Hhost _]]].
  rewrite Hh in Hh'. injection Hh' as <-.
  rewrite Hhost, Hsub. split; [reflexivity | ].
  unfold startswith. simpl. destruct h; reflexivity.
Qed.

(** X4: without a local octoprint configuration file [__init__] returns, and
    the API key stays what the application configuration gave. *)
Lemma init_without_local_file (flag : bool) (conf : Config) (home : string) (fs : files) :
  fs (local_config_path home) = None ->
  exists self,
    init flag conf home fs = Ok self /\ api_key self = configured_api_key conf.
Proof.
  intros Hfile. rewrite init_unfold.
  destruct (configured_host_str conf) as [h Hh]. rewrite Hh.
  unfold local_api_key. fold (local_config_path home). rewrite Hfile.
  destruct (negb (py_truthy (configured_api_key conf)));
    cbn [bind py_contains]; eexists; split; reflexivity.
Qed.

(** X5: a local file with the key provides it when the application
    configuration gave none. *)
Lemma init_reads_local_key (flag : bool) (conf : Config) (home : string) (fs : files)
  (data api key : pyval) :
  py_truthy (configured_api_key conf) = false ->
  fs (local_config_path home) = Some (Ok data) ->
  py_getitem data (PStr "api") = Ok api ->
  py_getitem api (PStr "key") = Ok key ->
  exists self, init flag conf home fs = Ok self /\ api_key self = key.
Proof.
  intros Hnone Hfile Hapi Hkey. rewrite init_unfold.
  destruct (configured_host_str conf) as [h Hh]. rewrite Hh, Hnone.
  unfold local_api_key. fold (local_config_path home).
  rewrite Hfile. cbn [negb bind]. rewrite Hapi. cbn [bind]. rewrite Hkey.
  cbn [bind py_contains]. eexists; split; reflexivity.
Qed.

(** C1, at a host without a scheme that has "http" inside: [__init__]
    leaves the host as it is, so that neither the host nor the two URLs
    start with "http://". *)
Theorem init_host_with_http_inside :
  init false [("octoprint", [("host", "httpbox.local")])] "/home/pi" no_file =
    Ok {| host := PStr "httpbox.local";
          port := PStr "5000";
          api_key := PNone;
          printer_url := "httpbox.local:5000/api/printer";
          job_url := "httpbox.local:5000/api/job";
          headers := [("X-Api-Key", PNone)];
          stats := PDict [];
          disabled := false |} /\
  is_substring "://" "httpbox.local" = false /\
  startswith "httpbox.local" "http://" = false.
Proof. repeat split; reflexivity. Qed.

(** C2, at a local configuration file without the key: [__init__] raises
    the [KeyError] of the missing entry, whether [api] or [key] under it is
    the one missing, and a [TypeError] on an empty file. *)
Theorem init_local_config_without_key :
  init false [] "/home/pi"
    (only_file "/home/pi/.octoprint/config.yaml"
       (Ok (PDict [("server", PDict [("host", PStr "0.0.0.0")])])))
    = Raise (KeyError (PStr "api")) /\
  init false [] "/home/pi"
    (only_file "/home/pi/.octoprint/config.yaml"
       (Ok (PDict [("api", PDict [("allowCrossOrigin", PBool true)])])))
    = Raise (KeyError (PStr "key")) /\
  init false [] "/home/pi" (only_file "/home/pi/.octoprint/config.yaml" (Ok PNone))
    = Raise TypeError.
Proof. repeat split; reflexivity. Qed.

Example init_sample :
  init false [("octoprint", [("host", "octopi.local"); ("api_key", "secret")])]
       "/home/pi" no_file = Ok sample_plugin.
Proof. reflexivity. Qed.

(** *** Further cases of rendering *)

(** Without a record, or when disabled, nothing is rendered, whatever the
    width. *)
Lemma msg_curse_nothing (max_width : Z) (self : Plugin.t) :
  py_truthy (stats self) = false \/ disabled self = true ->
  msg_curse max_width self = (Ok [], self).
Proof.
  intros H. unfold msg_curse.
  unfold mbind at 1, read at 1. cbv beta iota.
  destruct (py_truthy (stats self)) eqn:Hstats; cbn [negb]; [ | reflexivity ].
  destruct H as [H | H]; [discriminate H | ].
  unfold mbind at 1, is_disable. unfold read at 1. cbv beta iota.
  rewrite H. reflexivity.
Qed.

(** A tool without temperatures shows the placeholder, and durations of a
    day or more show the days. *)
Example msg_curse_placeholders :
  fst (msg_curse 40
         (set_stats sample_plugin
            (status_record PNone (PInt 90000) PNone (PStr "Operational")
               (PDict [("bed", PDict [("actual", PNone); ("target", PNone)])])))) =
    Ok [Line "OCTOPRINT Operational        " "TITLE";
        NewLine;
        Line "Temperature                  " "DEFAULT";
        Line "actual target" "DEFAULT";
        NewLine;
        Line "bed                           " "DEFAULT";
        Line ("None" ++ degree_C ++ "  None" ++ degree_C) "DEFAULT";
        NewLine;
        Line "Time passed:                       " "DEFAULT";
        Line "1 day, 1:00:00" "DEFAULT";
        NewLine;
        Line "Time left:                         " "DEFAULT";
        Line "  None" "DEFAULT"].
Proof. reflexivity. Qed.

(** A payload without the expected entries makes [update] raise and leaves
    the previous record. *)
Example update_contract_violation :
  update (stub (reply 200 "(printer body)" (Ok (PDict [])))
               (reply 200 "(job body)" (Ok job_payload))) sample_plugin
  = (Raise (KeyError (PStr "temperature")), sample_plugin).
Proof. reflexivity. Qed.

(** *** The statements on sample inputs *)

(** A poll answered with status 200 and the sample payloads. *)
Lemma update_projects_payloads_sample :
  update (stub (reply 200 "(printer body)" (Ok printer_payload))
               (reply 200 "(job body)" (Ok job_payload))) sample_plugin =
    (Ok (status_record (PInt 5000) (PInt 3661) (PInt 1339) (PStr "Printing")
           (PDict [("tool0", tool0)])),
     set_stats sample_plugin
       (status_record (PInt 5000) (PInt 3661) (PInt 1339) (PStr "Printing")
          (PDict [("tool0", tool0)]))) /\
  py_contains "error"
    (status_record (PInt 5000) (PInt 3661) (PInt 1339) (PStr "Printing")
       (PDict [("tool0", tool0)])) = Ok false.
Proof.
  apply (update_projects_payloads
           (stub (reply 200 "(printer body)" (Ok printer_payload))
                 (reply 200 "(job body)" (Ok job_payload)))
           sample_plugin
           {| status_code := 200; text := "(printer body)"; json := Ok printer_payload |}
           {| status_code := 200; text := "(job body)"; json := Ok job_payload |}
           job_payload printer_payload
           (PDict [("estimatedPrintTime", PInt 5000)])
           (PDict [("printTime", PInt 3661); ("printTimeLeft", PInt 1339)]));
    reflexivity.
Defined.

(** A poll whose first request is refused. *)
Lemma update_transport_fault_sample :
  exists message,
    update (stub (Fault "Connection refused") (Fault "Connection refused")) sample_plugin =
      (Ok (error_record message), set_stats sample_plugin (error_record message)) /\
    py_getitem (error_record message) (PStr "state") = Ok (PStr "Error") /\
    py_getitem (error_record message) (PStr "error") = Ok (PStr message) /\
    message <> "" /\
    startswith message "Unable to connect: " = true /\
    py_contains "temperature" (error_record message) = Ok false /\
    py_contains "progress_printTime" (error_record message) = Ok false /\
    py_contains "progress_printTimeLeft" (error_record message) = Ok false /\
    py_contains "estimatedPrintTime" (error_record message) = Ok false.
Proof.
  apply (update_transport_fault
           (stub (Fault "Connection refused") (Fault "Connection refused")) sample_plugin).
  left. exists "Connection refused". reflexivity.
Defined.

(** A poll answered by the printer endpoint with status 500 and the body
    "server down". *)
Lemma update_printer_status_error_sample :
  update (stub (reply 500 "server down" (Raise (DecodeError "Expecting value")))
               (reply 200 "(job body)" (Ok job_payload))) sample_plugin =
    (Ok (error_record "server down"), set_stats sample_plugin (error_record "server down")) /\
  py_getitem (error_record "server down") (PStr "state") = Ok (PStr "Error") /\
  py_getitem (error_record "server down") (PStr "error") = Ok (PStr "server down").
Proof.
  apply (update_printer_status_error
           (stub (reply 500 "server down" (Raise (DecodeError "Expecting value")))
                 (reply 200 "(job body)" (Ok job_payload)))
           sample_plugin
           {| status_code := 500; text := "server down";
              json := Raise (DecodeError "Expecting value") |}
           {| status_code := 200; text := "(job body)"; json := Ok job_payload |});
    [reflexivity | reflexivity | discriminate].
Defined.

(** The error record of that poll at width 40. *)
Lemma msg_curse_error_record_sample :
  msg_curse 40 (set_stats sample_plugin (error_record "server down")) =
    (Ok [Line "OCTOPRINT Error              " "TITLE";
         NewLine;
         Line "server down                  " "DEFAULT"],
     set_stats sample_plugin (error_record "server down")).
Proof.
  apply (msg_curse_error_record 40 (set_stats sample_plugin (error_record "server down"))
           [("state", PStr "Error"); ("error", PStr "server down")]
           (PStr "Error") "server down");
    [reflexivity | reflexivity | reflexivity | reflexivity | lia].
Defined.

(** The status record of the sample poll at width 40. *)
Lemma msg_curse_status_example_sample :
  fst (msg_curse 40
         (set_stats sample_plugin
            (status_record (PInt 5000) (PInt 3661) (PInt 1339) (PStr "Printing")
               (PDict [("tool0", tool0)])))) =
    Ok [Line "OCTOPRINT Printing           " "TITLE";
        NewLine;
        Line "Temperature                  " "DEFAULT";
        Line "actual target" "DEFAULT";
        NewLine;
        Line "tool0                         " "DEFAULT";
        Line ("200" ++ degree_C ++ "  210" ++ degree_C) "DEFAULT";
        NewLine;
        Line "Time passed:                       " "DEFAULT";
        Line "1:01:01" "DEFAULT";
        NewLine;
        Line "Time left:                         " "DEFAULT";
        Line "0:22:19" "DEFAULT"].
Proof.
  destruct (msg_curse_status_example
              (set_stats sample_plugin
                 (status_record (PInt 5000) (PInt 3661) (PInt 1339) (PStr "Printing")
                    (PDict [("tool0", tool0)])))
              "Printing" (PInt 5000) 1339 eq_refl eq_refl ltac:(lia)) as [H _].
  rewrite H. reflexivity.
Defined.

(** The same job body under status 200 and under status 503. *)
Lemma update_ignores_job_status_sample :
  update (stub (reply 200 "(printer body)" (Ok printer_payload))
               (reply 200 "(job body)" (Ok job_payload))) sample_plugin =
  update (stub (reply 200 "(printer body)" (Ok printer_payload))
               (reply 503 "(job body)" (Ok job_payload))) sample_plugin.
Proof.
  apply (update_ignores_job_status
           (stub (reply 200 "(printer body)" (Ok printer_payload))
                 (reply 200 "(job body)" (Ok job_payload)))
           (stub (reply 200 "(printer body)" (Ok printer_payload))
                 (reply 503 "(job body)" (Ok job_payload)))
           sample_plugin
           {| status_code := 200; text := "(printer body)"; json := Ok printer_payload |}
           {| status_code := 200; text := "(job body)"; json := Ok job_payload |}
           {| status_code := 503; text := "(job body)"; json := Ok job_payload |});
    reflexivity.
Defined.

(** The error record at width 10. *)
Lemma msg_curse_narrow_raises_sample :
  msg_curse 10 (set_stats sample_plugin (error_record "server down")) =
    (Raise ValueError, set_stats sample_plugin (error_record "server down")).
Proof.
  apply (proj2 (msg_curse_narrow_raises 10
                  (set_stats sample_plugin (error_record "server down"))
                  eq_refl eq_refl ltac:(lia)) (PStr "Error")).
  reflexivity.
Defined.

(** ** Further properties of the three methods *)

(** *** [__init__] *)

Lemma is_substring_http_prefixed (h : string) :
  is_substring "http" ("http://" ++ h) = true.
Proof. simpl. destruct h; reflexivity. Qed.

(** X1: every plugin [__init__] returns has a host with "http" in it (the
    configured host, prefixed when it had none), the two URLs made of that
    host and the configured port, the API key as only header, an empty
    record and the flag of the host. *)
Theorem init_result (flag : bool) (conf : Config) (home : string) (fs : files)
  (self : Plugin.t) :
  init flag conf home fs = Ok self ->
  exists h,
    configured_host conf = PStr h /\
    host self = PStr (if is_substring "http" h then h else "http://" ++ h) /\
    is_substring "http" (py_str (host self)) = true /\
    port self = configured_port conf /\
    printer_url self = py_str (host self) ++ ":" ++ py_str (port self) ++ "/api/printer" /\
    job_url self = py_str (host self) ++ ":" ++ py_str (port self) ++ "/api/job" /\
    headers self = [("X-Api-Key", api_key self)] /\
    stats self = PDict [] /\
    disabled self = flag.
Proof.
  rewrite init_unfold.
  destruct (configured_host_str conf) as [h Hh]. rewrite Hh.
  destruct (if negb (py_truthy (configured_api_key conf))
            then local_api_key home fs (configured_api_key conf)
            else Ok (configured_api_key conf)) as [key|e]; [ | discriminate ].
  cbn [bind py_contains]. intros H. injection H as <-.
  exists h. cbn [host port printer_url job_url headers api_key stats disabled].
  destruct (is_substring "http" h) eqn:Hsub; cbn [negb py_str];
    rewrite ?Hsub, ?is_substring_http_prefixed; repeat split; reflexivity.
Qed.


(** X3: an API key of the application configuration that is not empty is
    kept, and the local octoprint configuration is not consulted: whatever
    the local files are, [__init__] returns, and returns the same plugin. *)
Theorem init_configured_key_wins (flag : bool) (conf : Config) (home : string)
  (fs : files) :
  py_truthy (configured_api_key conf) = true ->
  init flag conf home fs = init flag conf home no_file /\
  exists self,
    init flag conf home fs = Ok self /\ api_key self = configured_api_key conf.
Proof.
  intros Hkey. rewrite !init_unfold, Hkey. cbn [negb bind].
  split; [reflexivity | ].
  destruct (configured_host_str conf) as [h Hh]. rewrite Hh.
  cbn [py_contains bind]. eexists; split; reflexivity.
Qed.

(** Without an [octoprint] section and without a local octoprint
    configuration, the plugin polls http://0.0.0.0:5000 with no API key. *)
Theorem init_defaults (flag : bool) (conf : Config) (home : string) (fs : files) :
  has_section conf "octoprint" = false ->
  fs (local_config_path home) = None ->
  init flag conf home fs =
    Ok {| host := PStr "http://0.0.0.0";
          port := PInt 5000;
          api_key := PNone;
          printer_url := "http://0.0.0.0:5000/api/printer";
          job_url := "http://0.0.0.0:5000/api/job";
          headers := [("X-Api-Key", PNone)];
          stats := PDict [];
          disabled := flag |}.
Proof.
  intros Hsection Hfile.
  unfold init. rewrite Hsection. cbn [py_truthy negb].
  unfold local_api_key. fold (local_config_path home). rewrite Hfile.
  reflexivity.
Qed.

(** *** [update] *)

(** The outcomes of [update], by what the two requests do. *)
Lemma update_cases (requests_get : transport) (self : Plugin.t) :
  (exists e,
     update requests_get self =
       (Ok (error_record ("Unable to connect: " ++ e)),
        set_stats self (error_record ("Unable to connect: " ++ e)))) \/
  (exists printer job,
     requests_get (printer_url self) (headers self) = Reply printer /\
     requests_get (job_url self) (headers self) = Reply job /\
     update requests_get self =
       match fill_stats get_init_value printer job with
       | Ok d => (Ok (PDict d), set_stats self (PDict d))
       | Raise e => (Raise e, self)
       end).
Proof.
  destruct (requests_get (printer_url self) (headers self)) as [printer|e] eqn:Hp.
  - destruct (requests_get (job_url self) (headers self)) as [job|e] eqn:Hj.
    + right. exists printer, job. repeat split. now apply update_replies.
    + left. exists e. apply update_fault. right. now exists printer.
  - left. exists e. apply update_fault. now left.
Qed.


(** X6: [update] touches no attribute but [stats]; when it returns, the
    record it returns is the one it stored, and when it raises, the plugin,
    with the record of the poll before, is as it was. *)
Theorem update_frame (requests_get : transport) (self : Plugin.t) :
  host (snd (update requests_get self)) = host self /\
  port (snd (update requests_get self)) = port self /\
  api_key (snd (update requests_get self)) = api_key self /\
  printer_url (snd (update requests_get self)) = printer_url self /\
  job_url (snd (update requests_get self)) = job_url self /\
  headers (snd (update requests_get self)) = headers self /\
  disabled (snd (update requests_get self)) = disabled self /\
  match fst (update requests_get self) with
  | Ok record => stats (snd (update requests_get self)) = record
  | Raise _ => snd (update requests_get self) = self
  end.
Proof.
  destruct (update_cases requests_get self) as [[e ->] | [printer [job [_ [_ ->]]]]].
  - repeat split.
  - destruct (fill_stats get_init_value printer job); repeat split.
Qed.



(** X9: of the network [update] uses the answers to its two URLs only, and
    when the printer request raises, the answer to the job URL neither. *)
Theorem update_requests (get1 get2 : transport) (self : Plugin.t) :
  get1 (printer_url self) (headers self) = get2 (printer_url self) (headers self) ->
  (get1 (job_url self) (headers self) = get2 (job_url self) (headers self) \/
   exists e, get1 (printer_url self) (headers self) = Fault e) ->
  update get1 self = update get2 self.
Proof.
  intros Hp Hj.
  destruct (get1 (printer_url self) (headers self)) as [printer|e] eqn:Hp1.
  - destruct Hj as [Hj | [e He]]; [ | discriminate He ].
    destruct (get1 (job_url self) (headers self)) as [job|e] eqn:Hj1.
    + rewrite (update_replies get1 self printer job Hp1 Hj1).
      rewrite (update_replies get2 self printer job); auto.
    + rewrite (update_fault get1 self e) by (right; now exists printer).
      rewrite (update_fault get2 self e); [reflexivity | ].
      right. exists printer. auto.
  - rewrite (update_fault get1 self e) by now left.
    rewrite (update_fault get2 self e); [reflexivity | now left].
Qed.

(** *** [msg_curse] *)

Lemma dict_get_nodup (d : dict) (k : string) (v : pyval) :
  NoDup (map fst d) -> In (k, v) d -> dict_get d k = Some v.
Proof.
  induction d as [|[k' v'] rest IH]; intros Hnodup Hin; [destruct Hin | ].
  inversion Hnodup as [|? ? Hnotin Hrest]; subst.
  cbn [dict_get]. destruct Hin as [Heq | Hin].
  - injection Heq as -> ->. now rewrite String.eqb_refl.
  - destruct (String.eqb k' k) eqn:E.
    + apply String.eqb_eq in E. subst k'. exfalso. apply Hnotin.
      change k with (fst (k, v)). now apply in_map.
    + now apply IH.
Qed.

(** The loop over the tools, started anywhere in the dict. *)
Lemma temperature_rows_from
  (self : Plugin.t) (d tools : dict) (w : Z) :
  stats self = PDict d ->
  dict_get d "temperature" = Some (PDict tools) ->
  0 <= w ->
  forall (rest : dict) (readings : list reading),
    Forall2 reads rest readings ->
    (forall entry, In entry rest -> dict_get tools (fst entry) = Some (snd entry)) ->
    forall ret0,
      temperature_rows w (map (fun kv => PStr (fst kv)) rest) ret0 self =
        (Ok (ret0 ++ flat_map (temperature_lines w) readings)%list, self).
Proof.
  intros Hstats Htemp Hw rest readings Hreads.
  induction Hreads as [|entry r rest readings [Hname [Hactual Htarget]] _ IH];
    intros Hlookup ret0.
  - cbn [map temperature_rows flat_map]. now rewrite app_nil_r.
  - cbn [map temperature_rows flat_map].
    rewrite (mbind_ok _ _ self _
               (temperature_row_dict self d tools w (fst entry) (snd entry)
                  (fst (snd r)) (snd (snd r)) ret0 Hstats Htemp
                  (Hlookup entry (or_introl eq_refl)) Hactual Htarget Hw)).
    rewrite IH by (intros e He; apply Hlookup; now right).
    unfold append, temperature_lines. rewrite Hname, <- !app_assoc. reflexivity.
Qed.

(** X11: over a temperature dict whose tools have temperatures that are
    numbers or [None], the loop adds the three items of each tool, in the
    order of the dict, and nothing else. *)
Theorem temperature_rows_dict
  (self : Plugin.t) (d tools : dict) (w : Z) (readings : list reading)
  (ret0 : list curse_item) :
  stats self = PDict d ->
  dict_get d "temperature" = Some (PDict tools) ->
  NoDup (map fst tools) ->
  Forall2 reads tools readings ->
  0 <= w ->
  temperature_rows w (map (fun kv => PStr (fst kv)) tools) ret0 self =
    (Ok (ret0 ++ flat_map (temperature_lines w) readings)%list, self) /\
  List.length (flat_map (temperature_lines w) readings) = (3 * List.length tools)%nat.
Proof.
  intros Hstats Htemp Hnodup Hreads Hw. split.
  - apply (temperature_rows_from self d tools w Hstats Htemp Hw tools readings Hreads).
    intros [k v] Hin. now apply dict_get_nodup.
  - clear -Hreads. induction Hreads as [|entry r rest readings _ _ IH]; [reflexivity | ].
    cbn [flat_map]. rewrite length_app, IH. cbn [temperature_lines List.length]. lia.
Qed.

Lemma duration_field_seconds (self : Plugin.t) (d : dict) (field : string) (o : option Z) :
  stats self = PDict d ->
  dict_get d field = Some (seconds_value o) ->
  below_a_day o ->
  exists v, duration_field field self = (Ok v, self) /\ py_str v = duration_cell o.
Proof.
  intros Hstats Hfield Hday. destruct o as [n|].
  - exists (PStr (hms n)). split; [ | reflexivity ].
    now apply (duration_field_int self d field n).
  - exists PNone. split; [ | reflexivity ].
    unfold duration_field.
    rewrite (mbind_ok _ _ self _ (stats_item_dict _ _ _ _ Hstats Hfield)).
    reflexivity.
Qed.

(** X12: a record without [error], with a state, tools whose temperatures
    are numbers or [None], and print times that are [None] or seconds below
    a day, is rendered at any width from 11 as the title, the header, the
    rows of the tools in the order of the dict and the two duration rows:
    10 items and 3 per tool. *)
Theorem msg_curse_status_record
  (max_width : Z) (self : Plugin.t) (d tools : dict) (state : pyval)
  (readings : list reading) (passed remaining : option Z) :
  stats self = PDict d ->
  disabled self = false ->
  11 <= max_width ->
  dict_get d "state" = Some state ->
  dict_get d "error" = None ->
  dict_get d "temperature" = Some (PDict tools) ->
  NoDup (map fst tools) ->
  Forall2 reads tools readings ->
  dict_get d "progress_printTime" = Some (seconds_value passed) ->
  below_a_day passed ->
  dict_get d "progress_printTimeLeft" = Some (seconds_value remaining) ->
  below_a_day remaining ->
  msg_curse max_width self =
    (Ok ([Line (ljust ("OCTOPRINT " ++ py_str state) (max_width - 11)) "TITLE";
          NewLine;
          Line (ljust "Temperature" (max_width - 11)) "DEFAULT";
          Line "actual target" "DEFAULT";
          NewLine]
         ++ flat_map (temperature_lines (max_width - 10)) readings
         ++ [Line (ljust "Time passed:" (max_width - 5)) "DEFAULT";
             Line (rjust (duration_cell passed) 6) "DEFAULT";
             NewLine;
             Line (ljust "Time left:" (max_width - 5)) "DEFAULT";
             Line (rjust (duration_cell remaining) 6) "DEFAULT"])%list, self) /\
  (forall items, fst (msg_curse max_width self) = Ok items ->
     List.length items = (10 + 3 * List.length tools)%nat).
Proof.
  intros Hstats Henabled Hwidth Hstate Herror Htemp Hnodup Hreads Hpassed Hpday
         Hleft Hlday.
  assert (Hrows : forall ret0,
             temperature_rows (max_width - 10) (map (fun kv => PStr (fst kv)) tools)
               ret0 self =
             (Ok (ret0 ++ flat_map (temperature_lines (max_width - 10)) readings)%list,
              self)).
  { apply (temperature_rows_from self d tools (max_width - 10) Hstats Htemp
             ltac:(lia) tools readings Hreads).
    intros [k v] Hin. now apply dict_get_nodup. }
  assert (Hcount : List.length (flat_map (temperature_lines (max_width - 10)) readings)
                   = (3 * List.length tools)%nat).
  { clear -Hreads. induction Hreads as [|entry r rest readings _ _ IH]; [reflexivity | ].
    cbn [flat_map]. rewrite length_app, IH. cbn [temperature_lines List.length]. lia. }
  destruct (duration_field_seconds self d _ passed Hstats Hpassed Hpday)
    as [vp [Hvp Hsp]].
  destruct (duration_field_seconds self d _ remaining Hstats Hleft Hlday)
    as [vl [Hvl Hsl]].
  assert (Hrender : msg_curse max_width self =
    (Ok ([Line (ljust ("OCTOPRINT " ++ py_str state) (max_width - 11)) "TITLE";
          NewLine;
          Line (ljust "Temperature" (max_width - 11)) "DEFAULT";
          Line "actual target" "DEFAULT";
          NewLine]
         ++ flat_map (temperature_lines (max_width - 10)) readings
         ++ [Line (ljust "Time passed:" (max_width - 5)) "DEFAULT";
             Line (rjust (duration_cell passed) 6) "DEFAULT";
             NewLine;
             Line (ljust "Time left:" (max_width - 5)) "DEFAULT";
             Line (rjust (duration_cell remaining) 6) "DEFAULT"])%list, self)).
  { rewrite msg_curse_enabled
      by (try rewrite Hstats; eauto using dict_get_truthy).
    rewrite (mbind_ok _ _ self _ (stats_item_dict _ _ "state" _ Hstats Hstate)).
    unfold mbind at 1, lift at 1. rewrite format_width_str by lia. cbv beta iota.
    unfold mbind at 1, read at 1. cbv beta iota.
    unfold mbind at 1, lift at 1. rewrite Hstats.
    cbn [py_contains]. unfold dict_has. rewrite Herror. cbv beta iota.
    unfold status_rows.
    unfold mbind at 1, lift at 1. rewrite format_width_str by lia. cbv beta iota.
    rewrite (mbind_ok _ _ self _ (stats_item_dict _ _ "temperature" _ Hstats Htemp)).
    unfold mbind at 1, lift at 1. cbn [py_iter]. cbv beta iota.
    rewrite (mbind_ok _ _ self _ (Hrows _)).
    rewrite (mbind_ok _ _ self _ Hvp).
    rewrite (mbind_ok _ _ self _ Hvl).
    unfold mbind, lift, ret.
    rewrite !format_width_str by lia.
    rewrite Hsp, Hsl. unfold append, curse_add_line, curse_new_line, DEFAULT.
    cbn [app]. rewrite <- !app_assoc. reflexivity. }
  split; [exact Hrender | ].
  rewrite Hrender. cbn [fst]. intros items H. injection H as <-.
  cbn [app List.length]. rewrite length_app, Hcount. cbn [List.length]. lia.
Qed.

(** *** What [msg_curse] reads of the record *)

Section SameOutput.

Variables (self1 self2 : Plugin.t) (d1 d2 : dict).
Hypothesis Hstats1 : stats self1 = PDict d1.
Hypothesis Hstats2 : stats self2 = PDict d2.
Hypothesis Hsame : same_rendered_entries d1 d2.

Lemma same_output_mbind {A B : Type} (m : M A) (k : A -> M B) :
  read_only m ->
  same_output m self1 self2 ->
  (forall a, same_output (k a) self1 self2) ->
  same_output (mbind m k) self1 self2.
Proof.
  intros Hro Hm Hk. unfold same_output, mbind in *.
  pose proof (Hro self1) as H1. pose proof (Hro self2) as H2.
  destruct (m self1) as [r1 s1], (m self2) as [r2 s2].
  cbn [fst snd] in *. subst s1 s2 r2.
  destruct r1; [apply Hk | reflexivity].
Qed.

Lemma same_output_lift {A : Type} (r : result A) : same_output (lift r) self1 self2.
Proof. reflexivity. Qed.

Lemma same_output_ret {A : Type} (a : A) : same_output (ret a) self1 self2.
Proof. reflexivity. Qed.

Lemma same_output_stats_item (k : string) :
  In k rendered_keys -> same_output (stats_item k) self1 self2.
Proof.
  intros Hk. unfold same_output, stats_item, mbind, read, lift.
  rewrite Hstats1, Hstats2. cbn [py_getitem]. rewrite (Hsame k Hk).
  destruct (dict_get d2 k); reflexivity.
Qed.

Ltac same_output_step :=
  match goal with
  | |- same_output (mbind _ _) _ _ =>
      apply same_output_mbind; [ auto with read_only | | intros ? ]
  | |- same_output (lift _) _ _ => apply same_output_lift
  | |- same_output (ret _) _ _ => apply same_output_ret
  | |- same_output (stats_item _) _ _ =>
      apply same_output_stats_item; unfold rendered_keys; simpl; tauto
  | |- same_output (if ?b then _ else _) _ _ => destruct b
  end.

Lemma same_output_duration_field (field : string) :
  In field rendered_keys -> same_output (duration_field field) self1 self2.
Proof.
  intros Hfield. unfold duration_field.
  apply same_output_mbind;
    [ auto with read_only | now apply same_output_stats_item | intros v ].
  destruct (is_none v); [apply same_output_ret | ].
  apply same_output_mbind;
    [ auto with read_only | now apply same_output_stats_item | intros v' ].
  repeat same_output_step.
Qed.

Lemma same_output_temperature_row (w : Z) (key : pyval) (ret0 : list curse_item) :
  same_output (temperature_row w key ret0) self1 self2.
Proof. unfold temperature_row. repeat same_output_step. Qed.

Lemma same_output_temperature_rows (w : Z) (keys : list pyval) :
  forall ret0, same_output (temperature_rows w keys ret0) self1 self2.
Proof.
  induction keys as [|key rest IH]; intros ret0; cbn [temperature_rows].
  - apply same_output_ret.
  - apply same_output_mbind;
      [ apply read_only_temperature_row | apply same_output_temperature_row | ].
    intros ret1. apply IH.
Qed.

Lemma same_output_status_rows (max_width : Z) (ret0 : list curse_item) :
  same_output (status_rows max_width ret0) self1 self2.
Proof.
  unfold status_rows.
  same_output_step; [same_output_step | ].
  same_output_step; [same_output_step | ].
  same_output_step; [same_output_step | ].
  apply same_output_mbind;
    [ apply read_only_temperature_rows | apply same_output_temperature_rows | intros ret4 ].
  apply same_output_mbind;
    [ apply read_only_duration_field
    | apply same_output_duration_field; unfold rendered_keys; simpl; tauto
    | intros actual ].
  apply same_output_mbind;
    [ apply read_only_duration_field
    | apply same_output_duration_field; unfold rendered_keys; simpl; tauto
    | intros target ].
  repeat same_output_step.
Qed.

Lemma same_output_has_error {A : Type} (k : bool -> M A) :
  (forall b, same_output (k b) self1 self2) ->
  same_output (stats1 <~ read stats ;;
               has_error <~ lift (py_contains "error" stats1) ;;
               k has_error) self1 self2.
Proof.
  intros Hk. unfold same_output, mbind, read, lift.
  rewrite Hstats1, Hstats2. cbn [py_contains]. unfold dict_has.
  rewrite (Hsame "error") by (unfold rendered_keys; simpl; tauto).
  apply Hk.
Qed.

Lemma same_output_msg_curse (max_width : Z) :
  py_truthy (stats self1) = py_truthy (stats self2) ->
  disabled self1 = disabled self2 ->
  same_output (msg_curse max_width) self1 self2.
Proof.
  intros Htruthy Hflag. unfold same_output.
  destruct (py_truthy (stats self2)) eqn:Ht2.
  - destruct (disabled self2) eqn:Hd2.
    + rewrite !msg_curse_nothing by (right; congruence). reflexivity.
    + rewrite !msg_curse_enabled by congruence.
      apply same_output_mbind;
        [ auto with read_only
        | apply same_output_stats_item; unfold rendered_keys; simpl; tauto
        | intros state ].
      same_output_step; [same_output_step | ].
      apply same_output_has_error. intros [|].
      * apply same_output_mbind;
          [ auto with read_only
          | apply same_output_stats_item; unfold rendered_keys; simpl; tauto
          | intros error ].
        repeat same_output_step.
      * apply same_output_status_rows.
  - rewrite !msg_curse_nothing by (left; congruence). reflexivity.
Qed.

End SameOutput.

Lemma dict_get_set_other (d : dict) (k k' : string) (v : pyval) :
  k <> k' -> dict_get (dict_set d k v) k' = dict_get d k'.
Proof.
  intros Hne. induction d as [|[k0 v0] rest IH]; cbn [dict_set dict_get].
  - destruct (String.eqb k k') eqn:E; [apply String.eqb_eq in E; contradiction | reflexivity].
  - destruct (String.eqb k0 k) eqn:E0; cbn [dict_get].
    + apply String.eqb_eq in E0. subst k0.
      destruct (String.eqb k k') eqn:E; [apply String.eqb_eq in E; contradiction | reflexivity].
    + destruct (String.eqb k0 k'); [reflexivity | exact IH].
Qed.

(** X13: [msg_curse] reads of the record only the entries [state], [error],
    [temperature], [progress_printTime] and [progress_printTimeLeft]: two
    plugins with the same flag whose records are both empty or both not and
    agree on these entries render the same, or raise the same. *)
Theorem msg_curse_rendered_entries
  (max_width : Z) (self1 self2 : Plugin.t) (d1 d2 : dict) :
  stats self1 = PDict d1 ->
  stats self2 = PDict d2 ->
  disabled self1 = disabled self2 ->
  py_truthy (PDict d1) = py_truthy (PDict d2) ->
  same_rendered_entries d1 d2 ->
  fst (msg_curse max_width self1) = fst (msg_curse max_width self2).
Proof.
  intros H1 H2 Hflag Htruthy Hsame.
  apply (same_output_msg_curse self1 self2 d1 d2 H1 H2 Hsame max_width);
    [ rewrite H1, H2; exact Htruthy | exact Hflag ].
Qed.

(** X14: the estimated print time is stored but never shown: giving a
    non-empty record another [estimatedPrintTime] changes nothing of what
    [msg_curse] returns or raises. *)
Theorem msg_curse_ignores_estimate
  (max_width : Z) (self : Plugin.t) (d : dict) (estimated : pyval) :
  stats self = PDict d ->
  d <> [] ->
  fst (msg_curse max_width
         (set_stats self (PDict (dict_set d "estimatedPrintTime" estimated))))
  = fst (msg_curse max_width self).
Proof.
  intros Hstats Hd.
  apply (same_output_msg_curse
           (set_stats self (PDict (dict_set d "estimatedPrintTime" estimated))) self
           (dict_set d "estimatedPrintTime" estimated) d eq_refl Hstats).
  - intros k Hk. apply dict_get_set_other.
    unfold rendered_keys in Hk. simpl in Hk.
    intros <-. repeat (destruct Hk as [Hk | Hk]; [discriminate Hk | ]). exact Hk.
  - rewrite Hstats. cbn [stats set_stats py_truthy].
    destruct d as [|[k v] rest]; [contradiction | ].
    cbn [dict_set]. destruct (String.eqb k "estimatedPrintTime"); reflexivity.
  - reflexivity.
Qed.

(** *** When nothing is rendered *)

Lemma never_empty_mbind {A B : Type} (m : M A) (k : A -> M (list B)) :
  (forall a, never_empty (k a)) -> never_empty (mbind m k).
Proof.
  intros Hk self items. unfold mbind.
  destruct (m self) as [[a|e] self']; [apply Hk | discriminate].
Qed.

Lemma never_empty_ret_append (l : list curse_item) (item : curse_item) :
  never_empty (ret (append l item)).
Proof.
  intros self items H. injection H as <-. unfold append.
  destruct l; discriminate.
Qed.

Lemma never_empty_status_rows (max_width : Z) (ret0 : list curse_item) :
  never_empty (status_rows max_width ret0).
Proof.
  unfold status_rows.
  repeat (apply never_empty_mbind; intros ?).
  apply never_empty_ret_append.
Qed.

(** X15: [msg_curse] returns the empty list exactly when the plugin holds no
    record or is disabled, whatever the width. *)
Theorem msg_curse_empty_iff (max_width : Z) (self : Plugin.t) :
  msg_curse max_width self = (Ok [], self) <->
  py_truthy (stats self) = false \/ disabled self = true.
Proof.
  split; [ | apply msg_curse_nothing ].
  intros H.
  destruct (py_truthy (stats self)) eqn:Hstats; [ | now left ].
  destruct (disabled self) eqn:Hflag; [now right | exfalso].
  rewrite (msg_curse_enabled max_width self Hstats Hflag) in H.
  assert (Hne : never_empty
    (state <~ stats_item "state" ;;
     msg <~ lift (format_width (PStr ("OCTOPRINT " ++ py_str state)) (max_width - 11)) ;;
     stats1 <~ read stats ;;
     has_error <~ lift (py_contains "error" stats1) ;;
     if has_error then
       error <~ stats_item "error" ;;
       msg_error <~ lift (format_width error (max_width - 11)) ;;
       ret [curse_add_line msg "TITLE"; curse_new_line; curse_add_line msg_error DEFAULT]
     else status_rows max_width [curse_add_line msg "TITLE"; curse_new_line])).
  { apply never_empty_mbind; intros state.
    apply never_empty_mbind; intros msg.
    apply never_empty_mbind; intros stats1.
    apply never_empty_mbind; intros [|].
    - apply never_empty_mbind; intros error.
      apply never_empty_mbind; intros msg_error.
      intros s items Hitems. injection Hitems as <-. discriminate.
    - apply never_empty_status_rows. }
  apply (Hne self []); [ now rewrite H | reflexivity ].
Qed.

Lemma init_stats_empty (flag : bool) (conf : Config) (home : string) (fs : files)
  (self : Plugin.t) :
  init flag conf home fs = Ok self -> stats self = PDict [].
Proof.
  rewrite init_unfold.
  destruct (if negb (py_truthy (configured_api_key conf))
            then local_api_key home fs (configured_api_key conf)
            else Ok (configured_api_key conf)) as [key|e]; [ | discriminate ].
  cbn [bind].
  destruct (py_contains "http" (configured_host conf)) as [b|e]; [ | discriminate ].
  cbn [bind]. intros H. injection H as <-. reflexivity.
Qed.

(** X16: a plugin as [__init__] returns it, before any poll, renders
    nothing. *)
Theorem init_then_msg_curse (flag : bool) (conf : Config) (home : string) (fs : files)
  (self : Plugin.t) (max_width : Z) :
  init flag conf home fs = Ok self ->
  msg_curse max_width self = (Ok [], self).
Proof.
  intros Hinit. apply msg_curse_nothing. left.
  now rewrite (init_stats_empty _ _ _ _ _ Hinit).
Qed.

(** *** A poll, then rendering *)

Lemma update_stores (requests_get : transport) (self : Plugin.t) (record : pyval) :
  fst (update requests_get self) = Ok record ->
  snd (update requests_get self) = set_stats self record.
Proof.
  destruct (update_cases requests_get self) as [[e ->] | [printer [job [_ [_ ->]]]]].
  - cbn [fst snd]. intros H. now injection H as <-.
  - destruct (fill_stats get_init_value printer job); cbn [fst snd];
      [ | discriminate ].
    intros H. now injection H as <-.
Qed.

Lemma msg_curse_of_error_record (max_width : Z) (self : Plugin.t) (message : string) :
  stats self = error_record message ->
  disabled self = false ->
  11 <= max_width ->
  msg_curse max_width self =
    (Ok [Line (ljust "OCTOPRINT Error" (max_width - 11)) "TITLE";
         NewLine;
         Line (ljust message (max_width - 11)) "DEFAULT"], self).
Proof.
  intros Hstats Henabled Hwidth. unfold error_record in Hstats.
  rewrite msg_curse_enabled by (try rewrite Hstats; auto).
  rewrite (mbind_ok _ _ self _ (stats_item_dict _ _ "state" _ Hstats eq_refl)).
  unfold mbind at 1, lift at 1. rewrite format_width_str by lia. cbv beta iota.
  unfold mbind at 1, read at 1. cbv beta iota.
  unfold mbind at 1, lift at 1. rewrite Hstats.
  cbn [py_contains]. change (dict_has _ "error") with true. cbv beta iota.
  rewrite (mbind_ok _ _ self _ (stats_item_dict _ _ "error" _ Hstats eq_refl)).
  unfold mbind, lift, ret. rewrite format_width_str by lia.
  reflexivity.
Qed.

(** X17: after a poll that returned an error record, on an enabled plugin
    and at a width of 11 or more, [msg_curse] shows the title
    "OCTOPRINT Error" and the error text of that poll, and nothing of the
    record before. *)
Theorem update_then_msg_curse_error
  (requests_get : transport) (self : Plugin.t) (max_width : Z) (message : string) :
  fst (update requests_get self) = Ok (error_record message) ->
  disabled self = false ->
  11 <= max_width ->
  fst (msg_curse max_width (snd (update requests_get self))) =
    Ok [Line (ljust "OCTOPRINT Error" (max_width - 11)) "TITLE";
        NewLine;
        Line (ljust message (max_width - 11)) "DEFAULT"].
Proof.
  intros Hupdate Henabled Hwidth.
  rewrite (update_stores _ _ _ Hupdate).
  rewrite (msg_curse_of_error_record max_width (set_stats self (error_record message))
             message eq_refl Henabled Hwidth).
  reflexivity.
Qed.

(** X10: [update] raises only on the path of a printer status of 200, from
    parsing or projecting the payloads: never when a request raised or when
    the printer status is another one. *)
Theorem update_raises_only_on_200 (requests_get : transport) (self : Plugin.t) (e : exn) :
  fst (update requests_get self) = Raise e ->
  exists printer job,
    requests_get (printer_url self) (headers self) = Reply printer /\
    requests_get (job_url self) (headers self) = Reply job /\
    status_code printer = 200 /\
    snd (update requests_get self) = self.
Proof.
  destruct (update_cases requests_get self) as [[m ->] | [printer [job [Hp [Hj ->]]]]].
  - discriminate.
  - intros H. exists printer, job. repeat split; auto.
    + destruct (status_code printer =? 200) eqn:E; [now apply Z.eqb_eq | ].
      unfold fill_stats in H. rewrite E in H. discriminate H.
    + destruct (fill_stats get_init_value printer job); [discriminate H | reflexivity].
Qed.

(** *** The shape of every rendering *)

Lemma extends_mbind {A B : Type} (ret0 : list B) (m : M A) (k : A -> M (list B)) :
  (forall a, extends ret0 (k a)) -> extends ret0 (mbind m k).
Proof.
  intros Hk self items. unfold mbind.
  destruct (m self) as [[a|e] self']; [apply Hk | discriminate].
Qed.

Lemma extends_chain {B : Type} (ret0 : list B) (m : M (list B))
  (k : list B -> M (list B)) :
  extends ret0 m -> (forall ret1, extends ret1 (k ret1)) -> extends ret0 (mbind m k).
Proof.
  intros Hm Hk self items. unfold mbind.
  specialize (Hm self).
  destruct (m self) as [[ret1|e] self']; [ | discriminate ].
  destruct (Hm ret1 eq_refl) as [tail1 ->].
  intros H. destruct (Hk _ _ _ H) as [tail2 ->].
  exists (tail1 ++ tail2)%list. now rewrite app_assoc.
Qed.

Lemma extends_ret {B : Type} (ret0 tail : list B) : extends ret0 (ret (ret0 ++ tail)%list).
Proof. intros self items H. injection H as <-. now exists tail. Qed.

Lemma extends_temperature_row (w : Z) (key : pyval) (ret0 : list curse_item) :
  extends ret0 (temperature_row w key ret0).
Proof.
  unfold temperature_row.
  repeat (apply extends_mbind; intros ?).
  unfold append. rewrite <- !app_assoc. apply extends_ret.
Qed.

Lemma extends_temperature_rows (w : Z) (keys : list pyval) :
  forall ret0, extends ret0 (temperature_rows w keys ret0).
Proof.
  induction keys as [|key rest IH]; intros ret0; cbn [temperature_rows].
  - rewrite <- (app_nil_r ret0) at 2. apply extends_ret.
  - apply extends_chain; [apply extends_temperature_row | exact IH].
Qed.

Lemma extends_status_rows (max_width : Z) (ret0 : list curse_item) :
  extends ret0 (status_rows max_width ret0).
Proof.
  unfold status_rows.
  apply extends_mbind; intros msg.
  apply extends_mbind; intros temperature.
  apply extends_mbind; intros keys.
  apply extends_chain.
  - intros self items H.
    destruct (extends_temperature_rows _ _ _ _ _ H) as [tail ->].
    unfold append. rewrite <- !app_assoc. now eexists.
  - intros ret4.
    repeat (apply extends_mbind; intros ?).
    unfold append. rewrite <- !app_assoc. apply extends_ret.
Qed.

Lemma extends_after_title (max_width : Z) (msg : string) (has_error : bool) :
  extends [curse_add_line msg "TITLE"; curse_new_line]
    (if has_error then
       error <~ stats_item "error" ;;
       msg_error <~ lift (format_width error (max_width - 11)) ;;
       ret [curse_add_line msg "TITLE"; curse_new_line; curse_add_line msg_error DEFAULT]
     else status_rows max_width [curse_add_line msg "TITLE"; curse_new_line]).
Proof.
  destruct has_error.
  - apply extends_mbind; intros error.
    apply extends_mbind; intros msg_error.
    apply (extends_ret [curse_add_line msg "TITLE"; curse_new_line]
             [curse_add_line msg_error DEFAULT]).
  - apply extends_status_rows.
Qed.

(** X18: whenever [msg_curse] returns items, the width is 11 or more, the
    record has a state, and the items start with the title line of that
    state, padded to [max_width - 11], and a line break. *)
Theorem msg_curse_output_shape (max_width : Z) (self : Plugin.t) (items : list curse_item) :
  fst (msg_curse max_width self) = Ok items ->
  items <> [] ->
  11 <= max_width /\
  exists state tail,
    py_getitem (stats self) (PStr "state") = Ok state /\
    items = Line (ljust ("OCTOPRINT " ++ py_str state) (max_width - 11)) "TITLE"
            :: NewLine :: tail.
Proof.
  intros H Hne.
  destruct (py_truthy (stats self)) eqn:Hstats;
    [ | rewrite msg_curse_nothing in H by (now left);
        cbn [fst] in H; congruence ].
  destruct (disabled self) eqn:Hflag;
    [ rewrite msg_curse_nothing in H by (now right);
      cbn [fst] in H; congruence | ].
  rewrite (msg_curse_enabled max_width self Hstats Hflag) in H.
  unfold stats_item at 1 in H. unfold mbind at 1 2, read at 1, lift at 1 in H.
  destruct (py_getitem (stats self) (PStr "state")) as [state|e];
    [ | cbn [fst] in H; discriminate H ].
  unfold mbind at 1, lift at 1 in H.
  destruct (format_width (PStr ("OCTOPRINT " ++ py_str state)) (max_width - 11))
    as [msg|e] eqn:Hmsg; [ | cbn [fst] in H; discriminate H ].
  unfold format_width in Hmsg.
  destruct (max_width - 11 <? 0) eqn:Hw; [discriminate Hmsg | ].
  injection Hmsg as <-. apply Z.ltb_ge in Hw. split; [lia | ].
  unfold mbind at 1 2, read at 1, lift at 1 in H.
  destruct (py_contains "error" (stats self)) as [has_error|e];
    [ | cbn [fst] in H; discriminate H ].
  destruct (extends_after_title _ _ _ _ _ H) as [tail ->].
  exists state, tail. split; reflexivity.
Qed.

(** *** The further properties on sample inputs *)

Lemma init_result_sample :
  exists h,
    configured_host [("octoprint", [("host", "octopi.local"); ("api_key", "secret")])]
      = PStr h /\
    host sample_plugin = PStr (if is_substring "http" h then h else "http://" ++ h) /\
    is_substring "http" (py_str (host sample_plugin)) = true /\
    port sample_plugin
      = configured_port [("octoprint", [("host", "octopi.local"); ("api_key", "secret")])] /\
    printer_url sample_plugin
      = py_str (host sample_plugin) ++ ":" ++ py_str (port sample_plugin) ++ "/api/printer" /\
    job_url sample_plugin
      = py_str (host sample_plugin) ++ ":" ++ py_str (port sample_plugin) ++ "/api/job" /\
    headers sample_plugin = [("X-Api-Key", api_key sample_plugin)] /\
    stats sample_plugin = PDict [] /\
    disabled sample_plugin = false.
Proof.
  apply (init_result false
           [("octoprint", [("host", "octopi.local"); ("api_key", "secret")])]
           "/home/pi" no_file sample_plugin).
  reflexivity.
Defined.

(** A configured key, and a local file that could not be subscripted. *)
Lemma init_configured_key_wins_sample :
  init false [("octoprint", [("host", "octopi.local"); ("api_key", "secret")])] "/home/pi"
       (only_file "/home/pi/.octoprint/config.yaml" (Ok PNone))
  = init false [("octoprint", [("host", "octopi.local"); ("api_key", "secret")])] "/home/pi"
         no_file /\
  exists self,
    init false [("octoprint", [("host", "octopi.local"); ("api_key", "secret")])] "/home/pi"
         (only_file "/home/pi/.octoprint/config.yaml" (Ok PNone)) = Ok self /\
    api_key self
      = configured_api_key [("octoprint", [("host", "octopi.local"); ("api_key", "secret")])].
Proof.
  apply (init_configured_key_wins false
           [("octoprint", [("host", "octopi.local"); ("api_key", "secret")])] "/home/pi"
           (only_file "/home/pi/.octoprint/config.yaml" (Ok PNone))).
  reflexivity.
Defined.

Lemma init_without_local_file_sample :
  exists self,
    init false [("octoprint", [("host", "octopi.local")])] "/home/pi" no_file = Ok self /\
    api_key self = configured_api_key [("octoprint", [("host", "octopi.local")])].
Proof.
  apply (init_without_local_file false [("octoprint", [("host", "octopi.local")])]
           "/home/pi" no_file).
  reflexivity.
Defined.

(** An empty key in the application configuration, and the local file. *)
Lemma init_reads_local_key_sample :
  exists self,
    init false [("octoprint", [("api_key", "")])] "/home/pi"
         (only_file "/home/pi/.octoprint/config.yaml" (Ok local_config)) = Ok self /\
    api_key self = PStr "0123ABCD".
Proof.
  apply (init_reads_local_key false [("octoprint", [("api_key", "")])] "/home/pi"
           (only_file "/home/pi/.octoprint/config.yaml" (Ok local_config))
           local_config (PDict [("key", PStr "0123ABCD")]) (PStr "0123ABCD"));
    reflexivity.
Defined.

Lemma init_defaults_sample :
  init true [("global", [("check_update", "false")])] "/root" no_file =
    Ok {| host := PStr "http://0.0.0.0";
          port := PInt 5000;
          api_key := PNone;
          printer_url := "http://0.0.0.0:5000/api/printer";
          job_url := "http://0.0.0.0:5000/api/job";
          headers := [("X-Api-Key", PNone)];
          stats := PDict [];
          disabled := true |}.
Proof.
  apply (init_defaults true [("global", [("check_update", "false")])] "/root" no_file);
    reflexivity.
Defined.


(** A refused printer request, with the job request answered or refused. *)
Lemma update_requests_sample :
  update (stub (Fault "Connection refused") (reply 200 "(job body)" (Ok job_payload)))
         sample_plugin
  = update (stub (Fault "Connection refused") (Fault "Timed out")) sample_plugin.
Proof.
  apply (update_requests
           (stub (Fault "Connection refused") (reply 200 "(job body)" (Ok job_payload)))
           (stub (Fault "Connection refused") (Fault "Timed out")) sample_plugin).
  - reflexivity.
  - right. exists "Connection refused". reflexivity.
Defined.

(** A printer payload without [temperature]. *)
Lemma update_raises_only_on_200_sample :
  exists printer job,
    stub (reply 200 "(printer body)" (Ok (PDict [])))
         (reply 200 "(job body)" (Ok job_payload))
         (printer_url sample_plugin) (headers sample_plugin) = Reply printer /\
    stub (reply 200 "(printer body)" (Ok (PDict [])))
         (reply 200 "(job body)" (Ok job_payload))
         (job_url sample_plugin) (headers sample_plugin) = Reply job /\
    status_code printer = 200 /\
    snd (update (stub (reply 200 "(printer body)" (Ok (PDict [])))
                      (reply 200 "(job body)" (Ok job_payload))) sample_plugin)
    = sample_plugin.
Proof.
  apply (update_raises_only_on_200
           (stub (reply 200 "(printer body)" (Ok (PDict [])))
                 (reply 200 "(job body)" (Ok job_payload)))
           sample_plugin (KeyError (PStr "temperature"))).
  reflexivity.
Defined.

Lemma two_tools_nodup : NoDup (map fst two_tools).
Proof.
  repeat constructor; simpl; intuition discriminate.
Defined.

Lemma two_tools_reads : Forall2 reads two_tools two_tools_readings.
Proof.
  repeat constructor.
Defined.

Lemma temperature_rows_dict_sample :
  temperature_rows 30 [PStr "tool0"; PStr "bed"] [] (set_stats sample_plugin two_tools_record)
  = (Ok [Line "tool0                         " "DEFAULT";
         Line ("200" ++ degree_C ++ "  210" ++ degree_C) "DEFAULT";
         NewLine;
         Line "bed                           " "DEFAULT";
         Line ("None" ++ degree_C ++ "  None" ++ degree_C) "DEFAULT";
         NewLine], set_stats sample_plugin two_tools_record).
Proof.
  apply (proj1 (temperature_rows_dict (set_stats sample_plugin two_tools_record)
                  [("estimatedPrintTime", PInt 5000);
                   ("progress_printTime", PInt 3661);
                   ("progress_printTimeLeft", PNone);
                   ("state", PStr "Printing");
                   ("temperature", PDict two_tools)]
                  two_tools 30 two_tools_readings []
                  eq_refl eq_refl two_tools_nodup two_tools_reads ltac:(lia))).
Defined.

Lemma msg_curse_status_record_sample :
  fst (msg_curse 40 (set_stats sample_plugin two_tools_record)) =
    Ok [Line "OCTOPRINT Printing           " "TITLE";
        NewLine;
        Line "Temperature                  " "DEFAULT";
        Line "actual target" "DEFAULT";
        NewLine;
        Line "tool0                         " "DEFAULT";
        Line ("200" ++ degree_C ++ "  210" ++ degree_C) "DEFAULT";
        NewLine;
        Line "bed                           " "DEFAULT";
        Line ("None" ++ degree_C ++ "  None" ++ degree_C) "DEFAULT";
        NewLine;
        Line "Time passed:                       " "DEFAULT";
        Line "1:01:01" "DEFAULT";
        NewLine;
        Line "Time left:                         " "DEFAULT";
        Line "  None" "DEFAULT"].
Proof.
  rewrite (proj1 (msg_curse_status_record 40 (set_stats sample_plugin two_tools_record)
                    [("estimatedPrintTime", PInt 5000);
                     ("progress_printTime", PInt 3661);
                     ("progress_printTimeLeft", PNone);
                     ("state", PStr "Printing");
                     ("temperature", PDict two_tools)]
                    two_tools (PStr "Printing") two_tools_readings (Some 3661) None
                    eq_refl eq_refl ltac:(lia) eq_refl eq_refl eq_refl
                    two_tools_nodup two_tools_reads eq_refl ltac:(simpl; lia) eq_refl I)).
  reflexivity.
Defined.

(** The same record with another estimate and one more entry. *)
Lemma msg_curse_rendered_entries_sample :
  fst (msg_curse 40 (set_stats sample_plugin two_tools_record)) =
  fst (msg_curse 40
         (set_stats sample_plugin
            (PDict [("state", PStr "Printing");
                    ("temperature", PDict two_tools);
                    ("progress_printTime", PInt 3661);
                    ("progress_printTimeLeft", PNone);
                    ("estimatedPrintTime", PNone);
                    ("file", PStr "benchy.gcode")]))).
Proof.
  apply (msg_curse_rendered_entries 40
           (set_stats sample_plugin two_tools_record)
           (set_stats sample_plugin
              (PDict [("state", PStr "Printing");
                      ("temperature", PDict two_tools);
                      ("progress_printTime", PInt 3661);
                      ("progress_printTimeLeft", PNone);
                      ("estimatedPrintTime", PNone);
                      ("file", PStr "benchy.gcode")]))
           [("estimatedPrintTime", PInt 5000);
            ("progress_printTime", PInt 3661);
            ("progress_printTimeLeft", PNone);
            ("state", PStr "Printing");
            ("temperature", PDict two_tools)]
           [("state", PStr "Printing");
            ("temperature", PDict two_tools);
            ("progress_printTime", PInt 3661);
            ("progress_printTimeLeft", PNone);
            ("estimatedPrintTime", PNone);
            ("file", PStr "benchy.gcode")]);
    try reflexivity.
  intros k Hk. unfold rendered_keys in Hk. simpl in Hk.
  repeat (destruct Hk as [<- | Hk]; [reflexivity | ]). destruct Hk.
Defined.

Lemma msg_curse_ignores_estimate_sample :
  fst (msg_curse 40
         (set_stats (set_stats sample_plugin two_tools_record)
            (PDict (dict_set [("estimatedPrintTime", PInt 5000);
                              ("progress_printTime", PInt 3661);
                              ("progress_printTimeLeft", PNone);
                              ("state", PStr "Printing");
                              ("temperature", PDict two_tools)]
                      "estimatedPrintTime" (PInt 7)))))
  = fst (msg_curse 40 (set_stats sample_plugin two_tools_record)).
Proof.
  apply (msg_curse_ignores_estimate 40 (set_stats sample_plugin two_tools_record)
           [("estimatedPrintTime", PInt 5000);
            ("progress_printTime", PInt 3661);
            ("progress_printTimeLeft", PNone);
            ("state", PStr "Printing");
            ("temperature", PDict two_tools)] (PInt 7));
    [reflexivity | discriminate].
Defined.

Lemma init_then_msg_curse_sample :
  msg_curse 5 sample_plugin = (Ok [], sample_plugin).
Proof.
  apply (init_then_msg_curse false
           [("octoprint", [("host", "octopi.local"); ("api_key", "secret")])]
           "/home/pi" no_file sample_plugin 5).
  reflexivity.
Defined.

Lemma update_then_msg_curse_error_sample :
  fst (msg_curse 40
         (snd (update (stub (Fault "Connection refused")
                            (reply 200 "(job body)" (Ok job_payload)))
                      (set_stats sample_plugin two_tools_record)))) =
    Ok [Line (ljust "OCTOPRINT Error" (40 - 11)) "TITLE";
        NewLine;
        Line (ljust "Unable to connect: Connection refused" (40 - 11)) "DEFAULT"].
Proof.
  apply (update_then_msg_curse_error
           (stub (Fault "Connection refused") (reply 200 "(job body)" (Ok job_payload)))
           (set_stats sample_plugin two_tools_record) 40
           "Unable to connect: Connection refused");
    [reflexivity | reflexivity | lia].
Defined.

Lemma msg_curse_output_shape_sample :
  11 <= 40 /\
  exists state tail,
    py_getitem (stats (set_stats sample_plugin (error_record "server down"))) (PStr "state")
      = Ok state /\
    [Line "OCTOPRINT Error              " "TITLE"; NewLine;
     Line "server down                  " "DEFAULT"]
    = Line (ljust ("OCTOPRINT " ++ py_str state) (40 - 11)) "TITLE" :: NewLine :: tail.
Proof.
  apply (msg_curse_output_shape 40 (set_stats sample_plugin (error_record "server down"))
           [Line "OCTOPRINT Error              " "TITLE"; NewLine;
            Line "server down                  " "DEFAULT"]);
    [reflexivity | discriminate].
Defined.
